(** * Faculty review API (server.js): cache, aggregation, search and writes

    A shallow embedding of [server.js].  The file holds two revisions of
    the server one after the other; where they differ the definitions
    live in [Module V1] (first revision) and [Module V2] (later revision).

    Modelling conventions.
    - A JavaScript string is a [string]; its characters are read as ASCII
      code units, so [toLowerCase] maps [A-Z] to [a-z] and the white space
      removed by [trim] is TAB, LF, VT, FF, CR and SPACE.
    - A JavaScript number is an IEEE-754 binary64 value, [spec_float] with
      precision 53 and maximal exponent 1024; sums and quotients are the
      correctly rounded ones of [SFadd] and [SFdiv].
    - A spreadsheet row is the list of its cells (strings); [row[i]] is
      [nth_error row i], [None] standing for [undefined].
    - A handler runs from its first to its last line without another
      handler in between. *)

From Stdlib Require Import ZArith List Bool String Ascii Lia QArith Qabs.
From Stdlib Require Import Sorted.
From Stdlib Require Import Floats.SpecFloat.
Import ListNotations.

Open Scope list_scope.
Open Scope string_scope.

(** ** JavaScript strings *)

Module JsString.

Definition code (c : ascii) : nat := nat_of_ascii c.

Definition isUpper (c : ascii) : bool :=
  (65 <=? code c)%nat && (code c <=? 90)%nat.

Definition lowerChar (c : ascii) : ascii :=
  if isUpper c then ascii_of_nat (code c + 32) else c.

(** [String.prototype.toLowerCase] on ASCII text: [A-Z] go to [a-z], every
    other character stays as it is. *)
Fixpoint toLowerCase (s : string) : string :=
  match s with
  | EmptyString => EmptyString
  | String c r => String (lowerChar c) (toLowerCase r)
  end.

(** White space and line terminators of the ASCII range, which is what
    [trim] removes from ASCII text. *)
Definition isWhite (c : ascii) : bool :=
  let n := code c in
  ((9 <=? n)%nat && (n <=? 13)%nat) || (n =? 32)%nat.

Fixpoint trimStart (s : string) : string :=
  match s with
  | EmptyString => EmptyString
  | String c r => if isWhite c then trimStart r else s
  end.

Fixpoint trimEnd (s : string) : string :=
  match s with
  | EmptyString => EmptyString
  | String c r =>
      match trimEnd r with
      | EmptyString => if isWhite c then EmptyString else String c EmptyString
      | t => String c t
      end
  end.

(** [String.prototype.trim]. *)
Definition trim (s : string) : string := trimEnd (trimStart s).

(** [t] is a prefix of [s]. *)
Fixpoint startsWith (s t : string) {struct t} : bool :=
  match t, s with
  | EmptyString, _ => true
  | String _ _, EmptyString => false
  | String b t', String a s' => Ascii.eqb a b && startsWith s' t'
  end.

(** [String.prototype.includes]: [t] occurs in [s] at some position. *)
Fixpoint includes (s t : string) : bool :=
  startsWith s t ||
  match s with
  | EmptyString => false
  | String _ s' => includes s' t
  end.

(** Truthiness of a string: every string but the empty one. *)
Definition truthy (s : string) : bool :=
  match s with EmptyString => false | _ => true end.

(** Substring containment, in words: some text before, [t], some text after. *)
Definition isSubstring (t s : string) : Prop :=
  exists pre post, s = pre ++ t ++ post.

End JsString.

(** ** JavaScript numbers *)

Module JsNumber.
Import JsString.

Definition prec : Z := 53.
Definition emax : Z := 1024.

(** The Number type: binary64. *)
Definition number : Type := spec_float.

Definition NaN : number := S754_nan.
Definition Infinity : number := S754_infinity false.
Definition zero : number := S754_zero false.

Definition add (x y : number) : number := SFadd prec emax x y.
Definition div (x y : number) : number := SFdiv prec emax x y.
Definition ltb (x y : number) : bool := SFltb x y.

(** The Number value for a mathematical integer (round to nearest, ties
    to even). *)
Definition ofZ (z : Z) : number := binary_normalize prec emax z 0 false.

Definition ofNat (n : nat) : number := ofZ (Z.of_nat n).

Definition numIsNaN (x : number) : bool :=
  match x with S754_nan => true | _ => false end.

Definition isFinite (x : number) : bool :=
  match x with S754_nan | S754_infinity _ => false | _ => true end.

(** The Number value for [(-1)^neg * D * 10^E], [0 <= D]. *)
Definition decimalToNumber (neg : bool) (D E : Z) : number :=
  match D with
  | Zpos d =>
      if (0 <=? E)%Z then binary_round prec emax neg (Z.to_pos (Zpos d * 10 ^ E)) 0
      else
        let '(q, e, l) := SFdiv_core_binary prec emax (Zpos d) 0 (10 ^ (- E)) 0 in
        binary_round_aux prec emax neg q e l
  | _ => S754_zero neg
  end.

(** *** Reading numerals *)

Definition digitOf (c : ascii) : option Z :=
  let n := code c in
  if (48 <=? n)%nat && (n <=? 57)%nat then Some (Z.of_nat (n - 48)) else None.

Definition hexDigitOf (c : ascii) : option Z :=
  let n := code c in
  if (48 <=? n)%nat && (n <=? 57)%nat then Some (Z.of_nat (n - 48))
  else if (97 <=? n)%nat && (n <=? 102)%nat then Some (Z.of_nat (n - 87))
  else if (65 <=? n)%nat && (n <=? 70)%nat then Some (Z.of_nat (n - 55))
  else None.

Definition digitBelow (base : Z) (c : ascii) : option Z :=
  match hexDigitOf c with
  | Some d => if (d <? base)%Z then Some d else None
  | None => None
  end.

(** The longest prefix of digits of the base, and what follows it. *)
Fixpoint spanDigits (base : Z) (s : string) : list Z * string :=
  match s with
  | EmptyString => ([], EmptyString)
  | String c r =>
      match digitBelow base c with
      | Some d => let (ds, r') := spanDigits base r in (d :: ds, r')
      | None => ([], s)
      end
  end.

Definition valueOf (base : Z) (ds : list Z) : Z :=
  fold_left (fun acc d => (acc * base + d)%Z) ds 0%Z.

Definition isNil {A} (l : list A) : bool :=
  match l with [] => true | _ => false end.

(** An optional sign: whether it is [-], and the rest. *)
Definition scanSign (s : string) : bool * string :=
  match s with
  | String "-" r => (true, r)
  | String "+" r => (false, r)
  | _ => (false, s)
  end.

(** ExponentPart, when one starts the string: its value and the rest. *)
Definition scanExponent (s : string) : Z * string :=
  match s with
  | String c r =>
      if Ascii.eqb c "e" || Ascii.eqb c "E" then
        let (neg, r1) := scanSign r in
        let (ds, r2) := spanDigits 10 r1 in
        if isNil ds then (0%Z, s)
        else ((if neg then - valueOf 10 ds else valueOf 10 ds)%Z, r2)
      else (0%Z, s)
  | EmptyString => (0%Z, s)
  end.

(** The longest prefix that is an unsigned decimal literal
    ([digits . digits? exp?], [. digits exp?] or [digits exp?]):
    its value as [D * 10^E] and the rest; [None] when there is none. *)
Definition scanDecimal (s : string) : option (Z * Z * string) :=
  let (ds1, r1) := spanDigits 10 s in
  let mant :=
    match r1 with
    | String "." r =>
        let (ds2, r2) := spanDigits 10 r in
        if isNil ds1 && isNil ds2 then None
        else Some (valueOf 10 (ds1 ++ ds2)%list, (- Z.of_nat (List.length ds2))%Z, r2)
    | _ => if isNil ds1 then None else Some (valueOf 10 ds1, 0%Z, r1)
    end in
  match mant with
  | Some (D, E, r) => let (x, r') := scanExponent r in Some (D, (E + x)%Z, r')
  | None => None
  end.

(** [0x], [0o] and [0b] literals: [None] when the string has no such
    prefix. *)
Definition scanNonDecimal (s : string) : option number :=
  match s with
  | String "0" (String c r) =>
      let base :=
        if Ascii.eqb c "x" || Ascii.eqb c "X" then Some 16%Z
        else if Ascii.eqb c "o" || Ascii.eqb c "O" then Some 8%Z
        else if Ascii.eqb c "b" || Ascii.eqb c "B" then Some 2%Z
        else None in
      match base with
      | Some b =>
          match spanDigits b r with
          | (d :: ds, EmptyString) => Some (ofZ (valueOf b (d :: ds)))
          | _ => Some NaN
          end
      | None => None
      end
  | _ => None
  end.

(** StringToNumber, the conversion behind [Number(s)] and [isNaN(s)]. *)
Definition StringToNumber (s : string) : number :=
  let t := trim s in
  match t with
  | EmptyString => zero
  | _ =>
      match scanNonDecimal t with
      | Some x => x
      | None =>
          let (neg, r) := scanSign t in
          if String.eqb r "Infinity" then S754_infinity neg
          else
            match scanDecimal r with
            | Some (D, E, EmptyString) => decimalToNumber neg D E
            | _ => NaN
            end
      end
  end.

(** [parseFloat] of a string. *)
Definition parseFloatString (s : string) : number :=
  let (neg, r) := scanSign (trimStart s) in
  if startsWith r "Infinity" then S754_infinity neg
  else
    match scanDecimal r with
    | Some (D, E, _) => decimalToNumber neg D E
    | None => NaN
    end.

(** [parseInt] of a string, no radix given. *)
Definition parseIntString (s : string) : number :=
  let (neg, r) := scanSign (trimStart s) in
  let (base, r1) :=
    match r with
    | String "0" (String c r') =>
        if Ascii.eqb c "x" || Ascii.eqb c "X" then (16%Z, r') else (10%Z, r)
    | _ => (10%Z, r)
    end in
  let (ds, _) := spanDigits base r1 in
  if isNil ds then NaN
  else
    match valueOf base ds with
    | Zpos p => binary_round prec emax neg p 0
    | _ => S754_zero neg
    end.

(** *** Writing numbers *)

Definition digitChar (d : Z) : ascii := ascii_of_nat (48 + Z.to_nat d).

(** The [k] decimal digits of [s], most significant first. *)
Fixpoint digitsN (k : nat) (s : Z) : string :=
  match k with
  | O => EmptyString
  | S k' =>
      String (digitChar (s / 10 ^ Z.of_nat k'))
             (digitsN k' (s mod 10 ^ Z.of_nat k'))
  end.

Fixpoint zeros (n : nat) : string :=
  match n with O => EmptyString | S n' => String "0" (zeros n') end.

Fixpoint splitAt (n : nat) (s : string) : string * string :=
  match n, s with
  | S n', String c r => let (a, b) := splitAt n' r in (String c a, b)
  | _, _ => (EmptyString, s)
  end.

(** A positive finite number [m * 2^e] as a fraction. *)
Definition fraction (m : positive) (e : Z) : Z * Z :=
  if (0 <=? e)%Z then (Zpos m * 2 ^ e, 1)%Z else (Zpos m, 2 ^ (- e))%Z.

(** The exact value of a finite number; [0] for the others. *)
Definition toQ (x : number) : Q :=
  match x with
  | S754_finite s m e =>
      let (num, den) := fraction m e in
      if s then Qopp (num # Z.to_pos den) else num # Z.to_pos den
  | _ => 0%Q
  end.

(** The least [n' >= n] with [num < den * 10^n']. *)
Fixpoint magUp (fuel : nat) (num den n : Z) : Z :=
  match fuel with
  | O => n
  | S f => if (num <? den * 10 ^ n)%Z then n else magUp f num den (n + 1)
  end.

(** The least [t' >= t] with [den <= num * 10^t']. *)
Fixpoint magDown (fuel : nat) (num den t : Z) : Z :=
  match fuel with
  | O => t
  | S f => if (den <=? num * 10 ^ t)%Z then t else magDown f num den (t + 1)
  end.

(** The [n] with [10^(n-1) <= num/den < 10^n]. *)
Definition magnitude (num den : Z) : Z :=
  if (den <=? num)%Z then magUp 400 num den 1
  else (1 - magDown 400 num den 1)%Z.

(** The number of decimal digits of a non-negative integer; [1] for [0]. *)
Definition numDigits (z : Z) : nat :=
  Z.to_nat (magUp (Z.to_nat (Z.log2 z)) z 1 1).

(** The decimal representation of a non-negative integer, no leading
    zeroes ([0] is written 0). *)
Definition decimalString (z : Z) : string := digitsN (numDigits z) z.

Definition sameNumber (x y : number) : bool :=
  match x, y with
  | S754_zero a, S754_zero b => Bool.eqb a b
  | S754_infinity a, S754_infinity b => Bool.eqb a b
  | S754_nan, S754_nan => true
  | S754_finite a m e, S754_finite b m' e' =>
      Bool.eqb a b && Pos.eqb m m' && Z.eqb e e'
  | _, _ => false
  end.

(** [num/den * 10^(k-n)] as a fraction. *)
Definition scaled (num den n k : Z) : Z * Z :=
  if (n <=? k)%Z then (num * 10 ^ (k - n), den)%Z
  else (num, den * 10 ^ (n - k))%Z.

(** The [k]-digit decimals [s * 10^(n-k)] next to [v = m * 2^e] whose
    Number value is [v]: the closer one when both are, the even one on a
    tie. *)
Definition candidate (m : positive) (e : Z) (n0 k : Z) : option (Z * Z) :=
  let v := S754_finite false m e in
  let (num, den) := fraction m e in
  let (X, Y) := scaled num den n0 k in
  let lo := (X / Y)%Z in
  let hi := (lo + 1)%Z in
  let hiC := if (hi =? 10 ^ k)%Z then (10 ^ (k - 1), n0 + 1)%Z else (hi, n0) in
  let okLo := sameNumber (decimalToNumber false lo (n0 - k)) v in
  let okHi := sameNumber (decimalToNumber false (fst hiC) (snd hiC - k)) v in
  match okLo, okHi with
  | true, false => Some (lo, n0)
  | false, true => Some hiC
  | false, false => None
  | true, true =>
      match (2 * X ?= (2 * lo + 1) * Y)%Z with
      | Lt => Some (lo, n0)
      | Gt => Some hiC
      | Eq => if Z.even lo then Some (lo, n0) else Some hiC
      end
  end.

(** The digits [s], their number [k] and the exponent [n] of the
    shortest decimal [s * 10^(n-k)] whose Number value is [m * 2^e];
    seventeen digits always do. *)
Fixpoint shortest (fuel : nat) (m : positive) (e : Z) (n0 : Z) (k : nat)
  : Z * nat * Z :=
  match fuel with
  | O =>
      let (num, den) := fraction m e in
      let (X, Y) := scaled num den n0 (Z.of_nat k) in
      ((X / Y)%Z, k, n0)
  | S f =>
      match candidate m e n0 (Z.of_nat k) with
      | Some (s, n) => (s, k, n)
      | None => shortest f m e n0 (S k)
      end
  end.

Definition render (s : Z) (k : nat) (n : Z) : string :=
  let ds := digitsN k s in
  if (Z.of_nat k <=? n)%Z && (n <=? 21)%Z then ds ++ zeros (Z.to_nat (n - Z.of_nat k))
  else if (0 <? n)%Z && (n <=? 21)%Z then
    let (a, b) := splitAt (Z.to_nat n) ds in a ++ "." ++ b
  else if (-6 <? n)%Z && (n <=? 0)%Z then "0." ++ zeros (Z.to_nat (- n)) ++ ds
  else
    let x := (n - 1)%Z in
    let ex := (if (x <? 0)%Z then "e-" else "e+") ++ decimalString (Z.abs x) in
    match ds with
    | String c (String _ _ as r) => String c ("." ++ r) ++ ex
    | _ => ds ++ ex
    end.

(** Number::toString, radix 10. *)
Definition NumberToString (x : number) : string :=
  match x with
  | S754_nan => "NaN"
  | S754_zero _ => "0"
  | S754_infinity s => if s then "-Infinity" else "Infinity"
  | S754_finite s m e =>
      let (num, den) := fraction m e in
      let '(d, k, n) := shortest 17 m e (magnitude num den) 1 in
      (if s then "-" else "") ++ render d k n
  end.

(** The integer nearest to [num/den * 10^f], the larger one on a tie. *)
Definition roundScaled (num den : Z) (f : nat) : Z :=
  ((2 * num * 10 ^ Z.of_nat f + den) / (2 * den))%Z.

(** The digits of [n] with a point before the last [f] of them, zeroes
    put in front when there are not more than [f]. *)
Definition fixedPoint (n : Z) (f : nat) : string :=
  let ds := decimalString n in
  let ds := zeros (S f - String.length ds) ++ ds in
  let (a, b) := splitAt (String.length ds - f) ds in
  a ++ (match f with O => "" | _ => "." ++ b end).

(** [Number.prototype.toFixed]. *)
Definition toFixed (x : number) (f : nat) : string :=
  match x with
  | S754_finite s m e =>
      let (num, den) := fraction m e in
      if (den * 10 ^ 21 <=? num)%Z then
        (if s then "-" else "") ++ NumberToString (S754_finite false m e)
      else (if s then "-" else "") ++ fixedPoint (roundScaled num den f) f
  | S754_zero _ => fixedPoint 0 f
  | _ => NumberToString x
  end.

End JsNumber.

(** ** JavaScript values and their conversions *)

Module JsValue.
Import JsString JsNumber.

(** The values a request body or a computed field holds here: no arrays
    and no nested objects. *)
Inductive value : Type :=
  | Undefined
  | Null
  | Bool (b : bool)
  | Num (x : number)
  | Str (s : string).

Definition ToString (v : value) : string :=
  match v with
  | Undefined => "undefined"
  | Null => "null"
  | Bool true => "true"
  | Bool false => "false"
  | Num x => NumberToString x
  | Str s => s
  end.

Definition ToNumber (v : value) : number :=
  match v with
  | Undefined => NaN
  | Null => zero
  | Bool true => ofZ 1
  | Bool false => zero
  | Num x => x
  | Str s => StringToNumber s
  end.

Definition ToBoolean (v : value) : bool :=
  match v with
  | Undefined | Null => false
  | Bool b => b
  | Num (S754_nan | S754_zero _) => false
  | Num _ => true
  | Str s => truthy s
  end.

(** The global [isNaN], [parseInt] and [parseFloat]. *)
Definition isNaN (v : value) : bool := numIsNaN (ToNumber v).
Definition parseInt (v : value) : number := parseIntString (ToString v).
Definition parseFloat (v : value) : number := parseFloatString (ToString v).

(** [v < c] and [v > c] against a number [c]. *)
Definition lessThan (v : value) (c : number) : bool := ltb (ToNumber v) c.
Definition greaterThan (v : value) (c : number) : bool := ltb c (ToNumber v).

(** What [res.json] sends. *)
Inductive json : Type :=
  | JNull
  | JBool (b : bool)
  | JNumber (x : number)
  | JString (s : string)
  | JArray (items : elements)
  | JObject (fields : members)
with elements : Type :=
  | ENil
  | ECons (j : json) (r : elements)
with members : Type :=
  | MNil
  | MCons (k : string) (v : json) (r : members).

Fixpoint elementsOf (l : list json) : elements :=
  match l with [] => ENil | j :: r => ECons j (elementsOf r) end.

Fixpoint membersOf (l : list (string * json)) : members :=
  match l with [] => MNil | (k, v) :: r => MCons k v (membersOf r) end.

(** An object literal and an array. *)
Definition object (l : list (string * json)) : json := JObject (membersOf l).
Definition array (l : list json) : json := JArray (elementsOf l).

(** A number as [JSON.stringify] writes it: [null] for NaN and the
    infinities, [0] for either zero. *)
Definition jsonOfNumber (x : number) : json :=
  match x with
  | S754_finite _ _ _ => JNumber x
  | S754_zero _ => JNumber zero
  | _ => JNull
  end.

Definition jsonOfValue (v : value) : json :=
  match v with
  | Undefined | Null => JNull
  | Bool b => JBool b
  | Num x => jsonOfNumber x
  | Str s => JString s
  end.

Fixpoint lookup (k : string) (m : members) : option json :=
  match m with
  | MNil => None
  | MCons k' v r => if String.eqb k k' then Some v else lookup k r
  end.

(** The member [k] of an object; [None] when there is none. *)
Definition member (k : string) (j : json) : option json :=
  match j with JObject m => lookup k m | _ => None end.

(** *** decodeURIComponent *)

Definition byteOf (a b : ascii) : option nat :=
  match hexDigitOf a, hexDigitOf b with
  | Some h, Some l => Some (Z.to_nat (16 * h + l))
  | _, _ => None
  end.

(** [%XX] at the head of the string: the octet and the rest. *)
Definition escaped (s : string) : option (nat * string) :=
  match s with
  | String "%" (String a (String b r)) =>
      match byteOf a b with Some n => Some (n, r) | None => None end
  | _ => None
  end.

Definition inRange (lo hi n : nat) : bool := (lo <=? n)%nat && (n <=? hi)%nat.

(** Well-formed UTF-8 sequences of two, three and four octets. *)
Definition wellFormed2 (b1 b2 : nat) : bool :=
  inRange 194 223 b1 && inRange 128 191 b2.

Definition wellFormed3 (b1 b2 b3 : nat) : bool :=
  ((b1 =? 224)%nat && inRange 160 191 b2
   || inRange 225 236 b1 && inRange 128 191 b2
   || (b1 =? 237)%nat && inRange 128 159 b2
   || inRange 238 239 b1 && inRange 128 191 b2)
  && inRange 128 191 b3.

Definition wellFormed4 (b1 b2 b3 b4 : nat) : bool :=
  ((b1 =? 240)%nat && inRange 144 191 b2
   || inRange 241 243 b1 && inRange 128 191 b2
   || (b1 =? 244)%nat && inRange 128 143 b2)
  && inRange 128 191 b3 && inRange 128 191 b4.

Definition chr (n : nat) : string := String (ascii_of_nat n) EmptyString.

(** [None] stands for the URIError of a malformed escape.  A decoded
    character beyond ASCII is kept as its UTF-8 octets. *)
Fixpoint decodeFrom (fuel : nat) (s : string) : option string :=
  match fuel with
  | O => Some EmptyString
  | S f =>
      match s with
      | EmptyString => Some EmptyString
      | String "%" _ =>
          match escaped s with
          | None => None
          | Some (b1, r1) =>
              let continue (pre : string) (r : string) :=
                match decodeFrom f r with
                | Some t => Some (pre ++ t)
                | None => None
                end in
              if (b1 <? 128)%nat then continue (chr b1) r1
              else if inRange 192 223 b1 then
                match escaped r1 with
                | Some (b2, r2) =>
                    if wellFormed2 b1 b2 then continue (chr b1 ++ chr b2) r2
                    else None
                | None => None
                end
              else if inRange 224 239 b1 then
                match escaped r1 with
                | Some (b2, r2) =>
                    match escaped r2 with
                    | Some (b3, r3) =>
                        if wellFormed3 b1 b2 b3
                        then continue (chr b1 ++ chr b2 ++ chr b3) r3
                        else None
                    | None => None
                    end
                | None => None
                end
              else if inRange 240 247 b1 then
                match escaped r1 with
                | Some (b2, r2) =>
                    match escaped r2 with
                    | Some (b3, r3) =>
                        match escaped r3 with
                        | Some (b4, r4) =>
                            if wellFormed4 b1 b2 b3 b4
                            then continue (chr b1 ++ chr b2 ++ chr b3 ++ chr b4) r4
                            else None
                        | None => None
                        end
                    | None => None
                    end
                | None => None
                end
              else None
          end
      | String c r =>
          match decodeFrom f r with
          | Some t => Some (String c t)
          | None => None
          end
      end
  end.

Definition decodeURIComponent (v : value) : option string :=
  let s := ToString v in decodeFrom (String.length s) s.

End JsValue.

(** ** The spreadsheet gateway, the clock and the handlers' monad *)

Module Gateway.
Import JsValue.

(** A row of the spreadsheet as [values.get] returns it: its cells, the
    trailing empty ones left out. *)
Definition Row : Type := list string.

(** What [sheets.spreadsheets.values.get] does: it rejects, or resolves
    to a response whose [data.values] may be missing. *)
Inductive GetResult : Type :=
  | GetFails (message : string)
  | GetOk (values : option (list Row)).

Inductive AppendResult : Type :=
  | AppendFails (message : string)
  | AppendOk.

(** The remote spreadsheet as the server meets it during one handler:
    what each call answers and how long it takes (milliseconds). *)
Record Sheets : Type := {
  values_get : string -> GetResult;
  values_append : string -> list value -> AppendResult;
  latency : string -> Z
}.

(** The remote calls a handler issued, oldest first. *)
Inductive Call : Type :=
  | CallGet (range : string)
  | CallAppend (range : string) (row : list value).

Definition isRead (c : Call) : bool :=
  match c with CallGet _ => true | CallAppend _ _ => false end.

Definition isAppend (c : Call) : bool :=
  match c with CallGet _ => false | CallAppend _ _ => true end.

End Gateway.

(** The body of POST /api/submit-review; a key the request lacks is
    [Undefined]. *)
Module ReviewBody.
Import JsValue.
Record t : Type := {
  name : value;
  teaching : value;
  evaluation : value;
  behaviour : value;
  internals : value;
  classAverage : value;
  overall : value
}.
End ReviewBody.

(** The body of POST /api/add-faculty. *)
Module FacultyBody.
Import JsValue.
Record t : Type := {
  name : value;
  department : value;
  subject : value;
  mobile : value
}.
End FacultyBody.

Module Server.
Import JsString JsNumber JsValue Gateway.

Record Faculty : Type := {
  id : nat;
  name : string;
  department : string;
  subject : string;
  mobile : string
}.

(** [facultyCache]: [data] is [None] for [null]. *)
Record Cache : Type := {
  data : option (list Faculty);
  timestamp : Z
}.

Definition initialCache : Cache := {| data := None; timestamp := 0 |}.

(** The process state a handler sees and leaves: the cache, the clock
    that [Date.now()] reads, and the remote calls issued so far. *)
Record State : Type := {
  facultyCache : Cache;
  clock : Z;
  calls : list Call
}.

Inductive Outcome (A : Type) : Type :=
  | Returned (a : A)
  | Thrown (message : string).
Arguments Returned {A} a.
Arguments Thrown {A} message.

(** Computations that read and write the state and may throw. *)
Definition M (A : Type) : Type := State -> Outcome A * State.

Definition ret {A} (a : A) : M A := fun st => (Returned a, st).

Definition bind {A B} (c : M A) (k : A -> M B) : M B :=
  fun st =>
    match c st with
    | (Returned a, st') => k a st'
    | (Thrown e, st') => (Thrown e, st')
    end.

Definition throw {A} (e : string) : M A := fun st => (Thrown e, st).

(** [try { c } catch (error) { h error }]. *)
Definition tryCatch {A} (c : M A) (h : string -> M A) : M A :=
  fun st =>
    match c st with
    | (Returned a, st') => (Returned a, st')
    | (Thrown e, st') => h e st'
    end.

Declare Scope js_scope.
Delimit Scope js_scope with js.
Notation "x <- c ;; k" := (bind c (fun x => k))
  (at level 100, c at next level, right associativity) : js_scope.
Notation "c ;;; k" := (bind c (fun _ => k))
  (at level 100, right associativity) : js_scope.
Open Scope js_scope.

Definition getCache : M Cache := fun st => (Returned (facultyCache st), st).

Definition setCache (c : Cache) : M unit :=
  fun st => (Returned tt, {| facultyCache := c; clock := clock st; calls := calls st |}).

(** [Date.now()]. *)
Definition dateNow : M Z := fun st => (Returned (clock st), st).

(** The state when the clock has moved to [t] and nothing else happened. *)
Definition atTime (t : Z) (st : State) : State :=
  {| facultyCache := facultyCache st; clock := t; calls := calls st |}.

Definition remote (w : Sheets) (range : string) (c : Call) (st : State) : State :=
  {| facultyCache := facultyCache st;
     clock := clock st + latency w range;
     calls := calls st ++ [c] |}.

(** [await sheets.spreadsheets.values.get({ range })], then
    [res.data.values]. *)
Definition sheetsGet (w : Sheets) (range : string) : M (option (list Row)) :=
  fun st =>
    match values_get w range with
    | GetFails e => (Thrown e, remote w range (CallGet range) st)
    | GetOk v => (Returned v, remote w range (CallGet range) st)
    end.

(** [await sheets.spreadsheets.values.append({ range, requestBody })]. *)
Definition sheetsAppend (w : Sheets) (range : string) (row : list value) : M unit :=
  fun st =>
    match values_append w range row with
    | AppendFails e => (Thrown e, remote w range (CallAppend range row) st)
    | AppendOk => (Returned tt, remote w range (CallAppend range row) st)
    end.

(** [res.data.values || []]. *)
Definition orEmpty (v : option (list Row)) : list Row :=
  match v with Some rows => rows | None => [] end.

(** [faculty => faculty.name.toLowerCase().includes(term) ||
    faculty.department.toLowerCase().includes(term) ||
    faculty.subject.toLowerCase().includes(term)], the filter of
    [searchFaculty]. *)
Definition keepsTerm (term : string) (faculty : Faculty) : bool :=
  includes (toLowerCase (name faculty)) term
  || includes (toLowerCase (department faculty)) term
  || includes (toLowerCase (subject faculty)) term.

(** [row[i] || '']. *)
Definition cellOr (row : Row) (i : nat) : string :=
  match nth_error row i with Some s => s | None => EmptyString end.

(** [Array.prototype.map] with the index, counted from [i]. *)
Fixpoint mapFrom {A B} (f : A -> nat -> B) (i : nat) (l : list A) : list B :=
  match l with
  | [] => []
  | x :: r => f x i :: mapFrom f (S i) r
  end.

Definition mapIndexed {A B} (f : A -> nat -> B) (l : list A) : list B :=
  mapFrom f 0 l.

(** [Set.prototype.add], [new Set(iterable)] and its spread into an array:
    the elements in the order of their first insertion. *)
Definition setAdd (s : list string) (x : string) : list string :=
  if existsb (String.eqb x) s then s else s ++ [x].

Definition newSet (l : list string) : list string := fold_left setAdd l [].

(** [rows.map(row => row[0]).filter(name => name)]. *)
Fixpoint firstColumn (rows : list Row) : list string :=
  match rows with
  | [] => []
  | row :: r =>
      match nth_error row 0 with
      | Some n => if truthy n then n :: firstColumn r else firstColumn r
      | None => firstColumn r
      end
  end.

(** The averages object of [getFacultyAverages]; a category holds the
    number [0] or the string of [toFixed]. *)
Record FacultyAverages : Type := {
  teaching : value;
  evaluation : value;
  behaviour : value;
  internals : value;
  classAverage : value;
  overall : value;
  count : nat;
  latestReview : Row
}.

(** [row => row[index] && !isNaN(row[index])]. *)
Definition validEntry (index : nat) (row : Row) : bool :=
  match nth_error row index with
  | Some c => truthy c && negb (isNaN (Str c))
  | None => false
  end.

(** [parseFloat(row[index])]. *)
Definition entry (index : nat) (row : Row) : number :=
  match nth_error row index with
  | Some c => parseFloat (Str c)
  | None => parseFloat Undefined
  end.

(** The inner [calculateAverage] of [getFacultyAverages], both revisions. *)
Definition calculateAverage (facultyReviews : list Row) (index : nat) : value :=
  let validReviews := filter (validEntry index) facultyReviews in
  match validReviews with
  | [] => Num zero
  | _ =>
      let sum := fold_left (fun sum row => add sum (entry index row)) validReviews zero in
      Str (toFixed (div sum (ofNat (List.length validReviews))) 1)
  end.

Section Config.

(** [CONFIG]: the sheet names come from the environment. *)
Variable REVIEWS_SHEET FACULTY_SHEET : string.

Definition CACHE_DURATION : Z := 5 * 60 * 1000.

(** [new Date().toLocaleString('en-IN', { timeZone: 'Asia/Kolkata' })]. *)
Variable toLocaleString : Z -> string.

Definition placeholder (n : string) (index : nat) : Faculty :=
  {| id := index + 1;
     name := n;
     department := "Not specified";
     subject := "Not specified";
     mobile := "Not available" |}.

Definition getFacultyFromReviews (w : Sheets) : M (list Faculty) :=
  tryCatch
    (res <- sheetsGet w (REVIEWS_SHEET ++ "!A2:A") ;;
     let rows := orEmpty res in
     let uniqueNames := newSet (firstColumn rows) in
     ret (mapIndexed placeholder uniqueNames))
    (fun _ => ret []).

Definition facultyOfRow (row : Row) (index : nat) : Faculty :=
  {| id := index + 1;
     name := cellOr row 0;
     department := cellOr row 1;
     subject := cellOr row 2;
     mobile := cellOr row 3 |}.

(** [facultyCache.data && (Date.now() - facultyCache.timestamp) < CONFIG.CACHE_DURATION]. *)
Definition cacheHit (c : Cache) (now : Z) : bool :=
  match data c with
  | Some _ => (now - timestamp c <? CACHE_DURATION)%Z
  | None => false
  end.

(** [faculty => faculty.name.trim() !== '']. *)
Definition hasName (faculty : Faculty) : bool :=
  negb (String.eqb (trim (name faculty)) "").

Definition getFacultyDataFromSheets (w : Sheets) : M (list Faculty) :=
  tryCatch
    (c <- getCache ;;
     now <- dateNow ;;
     match (if cacheHit c now then data c else None) with
     | Some cached => ret cached
     | None =>
         res <- sheetsGet w (FACULTY_SHEET ++ "!A2:D") ;;
         let rows := orEmpty res in
         let facultyData := filter hasName (mapIndexed facultyOfRow rows) in
         stored <- dateNow ;;
         setCache {| data := Some facultyData; timestamp := stored |} ;;;
         ret facultyData
     end)
    (fun _ => getFacultyFromReviews w).

(** [facultyCache.timestamp = 0]. *)
Definition resetTimestamp : M unit :=
  c <- getCache ;;
  setCache {| data := data c; timestamp := 0 |}.

(** The object [getFacultyAverages] returns once the matching rows are
    known; [None] for [null]. *)
Definition summarize (facultyReviews : list Row) : option FacultyAverages :=
  match facultyReviews with
  | [] => None
  | first :: _ =>
      Some {| teaching := calculateAverage facultyReviews 1;
              evaluation := calculateAverage facultyReviews 2;
              behaviour := calculateAverage facultyReviews 3;
              internals := calculateAverage facultyReviews 4;
              classAverage := calculateAverage facultyReviews 5;
              overall := calculateAverage facultyReviews 6;
              count := List.length facultyReviews;
              latestReview := first |}
  end.

Definition jsonOfAverages (a : FacultyAverages) : json :=
  object [("teaching", jsonOfValue (teaching a));
          ("evaluation", jsonOfValue (evaluation a));
          ("behaviour", jsonOfValue (behaviour a));
          ("internals", jsonOfValue (internals a));
          ("classAverage", jsonOfValue (classAverage a));
          ("overall", jsonOfValue (overall a));
          ("count", JNumber (ofNat (count a)));
          ("latestReview", array (map JString (latestReview a)))].

(** What a route sends: the HTTP status and the JSON body. *)
Record Response : Type := {
  status : nat;
  body : json
}.

Definition send (code : nat) (fields : list (string * json)) : M Response :=
  ret {| status := code; body := object fields |}.

(** [value.trim()]: a TypeError on what has no such method. *)
Definition trimOf (what : string) (v : value) : M string :=
  match v with
  | Str s => ret (trim s)
  | Undefined | Null =>
      throw ("Cannot read properties of " ++ ToString v ++ " (reading 'trim')")
  | _ => throw (what ++ ".trim is not a function")
  end.

(** [value?.trim() || '']: the optional chain stops at [undefined] and
    [null]; on what has no [trim] the call is a TypeError that names the
    chain. *)
Definition trimOrEmpty (what : string) (v : value) : M string :=
  match v with
  | Undefined | Null => ret EmptyString
  | Str s => ret (trim s)
  | _ => throw (what ++ "?.trim is not a function")
  end.

(** GET /api/faculty-averages, over the revision's [getFacultyAverages]. *)
Definition facultyAveragesRoute
    (getFacultyAverages : Sheets -> string -> M (option FacultyAverages))
    (w : Sheets) (faculty : value) : M Response :=
  tryCatch
    (facultyName <-
       match decodeURIComponent faculty with
       | Some s => ret s
       | None => throw "URI malformed"
       end ;;
     averages <- getFacultyAverages w facultyName ;;
     match averages with
     | Some a =>
         send 200 [("success", JBool true);
                   ("averages", jsonOfAverages a);
                   ("message", JString ("Found " ++ NumberToString (ofNat (count a))
                                        ++ " reviews for " ++ facultyName))]
     | None =>
         send 200 [("success", JBool false);
                   ("averages", JNull);
                   ("message", JString ("No reviews found for " ++ facultyName))]
     end)
    (fun e =>
       send 500 [("success", JBool false);
                 ("error", JString "Failed to get faculty averages");
                 ("details", JString e)]).

(** [rating => rating < 1 || rating > 5]. *)
Definition outOfRange (rating : value) : bool :=
  lessThan rating (ofZ 1) || greaterThan rating (ofZ 5).

(** POST /api/submit-review; [columns] is the part of the append range
    after the sheet name. *)
Definition submitReviewRoute (columns : string) (w : Sheets) (b : ReviewBody.t)
  : M Response :=
  tryCatch
    (let facultyName := ReviewBody.name b in
     let teaching := ReviewBody.teaching b in
     let evaluation := ReviewBody.evaluation b in
     let behaviour := ReviewBody.behaviour b in
     let internals := ReviewBody.internals b in
     let classAverage := ReviewBody.classAverage b in
     let overall := ReviewBody.overall b in
     if negb (ToBoolean facultyName) || isNaN teaching || isNaN evaluation
        || isNaN behaviour || isNaN internals || isNaN classAverage
        || isNaN overall
     then
       send 400 [("success", JBool false);
                 ("error", JString "Invalid input data");
                 ("message", JString "All fields are required and ratings must be numbers")]
     else
       let ratings := [teaching; evaluation; behaviour; internals; overall] in
       let invalidRatings := existsb outOfRange ratings in
       if invalidRatings then
         send 400 [("success", JBool false);
                   ("error", JString "Invalid rating range");
                   ("message", JString "All ratings must be between 1 and 5")]
       else
         trimmed <- trimOf "facultyName" facultyName ;;
         now <- dateNow ;;
         let reviewData :=
           [Str trimmed;
            Num (parseInt teaching);
            Num (parseInt evaluation);
            Num (parseInt behaviour);
            Num (parseInt internals);
            Num (parseFloat classAverage);
            Num (parseInt overall);
            Str (toLocaleString now)] in
         sheetsAppend w (REVIEWS_SHEET ++ columns) reviewData ;;;
         resetTimestamp ;;;
         send 200 [("success", JBool true);
                   ("message", JString "Review submitted successfully");
                   ("data", object
                      [("faculty", JString trimmed);
                       ("ratings", object
                          [("teaching", jsonOfNumber (parseInt teaching));
                           ("evaluation", jsonOfNumber (parseInt evaluation));
                           ("behaviour", jsonOfNumber (parseInt behaviour));
                           ("internals", jsonOfNumber (parseInt internals));
                           ("classAverage", jsonOfNumber (parseFloat classAverage));
                           ("overall", jsonOfNumber (parseInt overall))]);
                       ("timestamp", JString (toLocaleString now))])])
    (fun e =>
       send 500 [("success", JBool false);
                 ("error", JString "Failed to submit review");
                 ("details", JString e)]).

(** POST /api/add-faculty. *)
Definition addFacultyRoute (w : Sheets) (b : FacultyBody.t) : M Response :=
  tryCatch
    (let name := FacultyBody.name b in
     let department := FacultyBody.department b in
     if negb (ToBoolean name) || negb (ToBoolean department) then
       send 400 [("success", JBool false);
                 ("error", JString "Name and department are required")]
     else
       n <- trimOf "name" name ;;
       d <- trimOf "department" department ;;
       s <- trimOrEmpty "subject" (FacultyBody.subject b) ;;
       m <- trimOrEmpty "mobile" (FacultyBody.mobile b) ;;
       let facultyData := [Str n; Str d; Str s; Str m] in
       sheetsAppend w (FACULTY_SHEET ++ "!A2:D") facultyData ;;;
       resetTimestamp ;;;
       send 200 [("success", JBool true);
                 ("message", JString "Faculty member added successfully");
                 ("data", object
                    [("name", JString n);
                     ("department", JString d);
                     ("subject", JString s);
                     ("mobile", JString m)])])
    (fun e =>
       send 500 [("success", JBool false);
                 ("error", JString "Failed to add faculty member");
                 ("details", JString e)]).

End Config.

End Server.

(** ** The first revision of server.js *)

Module V1.
Import JsString JsNumber JsValue Gateway Server.

(** [row => row[0] && row[0].toLowerCase().includes(facultyName.toLowerCase())]. *)
Definition matchesName (facultyName : string) (row : Row) : bool :=
  match nth_error row 0 with
  | Some n => truthy n && includes (toLowerCase n) (toLowerCase facultyName)
  | None => false
  end.

Definition searchFaculty (facultyData : list Faculty) (searchTerm : string)
  : list Faculty :=
  let term := toLowerCase searchTerm in
  filter (keepsTerm term) facultyData.

Section Config.
Variable REVIEWS_SHEET FACULTY_SHEET : string.
Variable toLocaleString : Z -> string.

Definition getFacultyAverages (w : Sheets) (facultyName : string)
  : M (option FacultyAverages) :=
  tryCatch
    (res <- sheetsGet w (REVIEWS_SHEET ++ "!A2:I") ;;
     let rows := orEmpty res in
     let facultyReviews := filter (matchesName facultyName) rows in
     ret (summarize facultyReviews))
    (fun _ => ret None).

Definition apiFacultyAverages : Sheets -> value -> M Response :=
  facultyAveragesRoute getFacultyAverages.

Definition apiSubmitReview : Sheets -> ReviewBody.t -> M Response :=
  submitReviewRoute REVIEWS_SHEET toLocaleString "!A2:I".

Definition apiAddFaculty : Sheets -> FacultyBody.t -> M Response :=
  addFacultyRoute FACULTY_SHEET.

End Config.
End V1.

(** ** The later revision of server.js *)

Module V2.
Import JsString JsNumber JsValue Gateway Server.

(** [row => row[0] && row[0].toLowerCase().trim() === normalizedFacultyName]. *)
Definition matchesName (normalizedFacultyName : string) (row : Row) : bool :=
  match nth_error row 0 with
  | Some n => truthy n && String.eqb (trim (toLowerCase n)) normalizedFacultyName
  | None => false
  end.

Definition searchFaculty (facultyData : list Faculty) (searchTerm : string)
  : list Faculty :=
  let term := trim (toLowerCase searchTerm) in
  filter (keepsTerm term) facultyData.

Section Config.
Variable REVIEWS_SHEET FACULTY_SHEET : string.
Variable toLocaleString : Z -> string.

Definition getFacultyAverages (w : Sheets) (facultyName : string)
  : M (option FacultyAverages) :=
  tryCatch
    (res <- sheetsGet w (REVIEWS_SHEET ++ "!A2:I") ;;
     let rows := orEmpty res in
     let normalizedFacultyName := trim (toLowerCase facultyName) in
     let facultyReviews := filter (matchesName normalizedFacultyName) rows in
     ret (summarize facultyReviews))
    (fun _ => ret None).

(** The routes the later revision leaves as they were. *)
Definition apiFacultyAverages : Sheets -> value -> M Response :=
  facultyAveragesRoute getFacultyAverages.

Definition apiSubmitReview : Sheets -> ReviewBody.t -> M Response :=
  submitReviewRoute REVIEWS_SHEET toLocaleString "!A2:H".

Definition apiAddFaculty : Sheets -> FacultyBody.t -> M Response :=
  addFacultyRoute FACULTY_SHEET.

End Config.
End V2.

(** ** Either revision *)

Module Either.
Import JsString JsNumber JsValue Gateway Server.

Inductive Revision : Type := First | Later.

(** The filter of [getFacultyAverages] for the name asked for. *)
Definition selects (r : Revision) (facultyName : string) : Row -> bool :=
  match r with
  | First => V1.matchesName facultyName
  | Later => V2.matchesName (trim (toLowerCase facultyName))
  end.

Definition getFacultyAverages (r : Revision)
  : string -> Sheets -> string -> M (option FacultyAverages) :=
  match r with
  | First => V1.getFacultyAverages
  | Later => V2.getFacultyAverages
  end.

Definition apiFacultyAverages (r : Revision)
  : string -> Sheets -> value -> M Response :=
  match r with
  | First => V1.apiFacultyAverages
  | Later => V2.apiFacultyAverages
  end.

Definition apiSubmitReview (r : Revision)
  : string -> (Z -> string) -> Sheets -> ReviewBody.t -> M Response :=
  match r with
  | First => V1.apiSubmitReview
  | Later => V2.apiSubmitReview
  end.

Definition searchFaculty (r : Revision)
  : list Faculty -> string -> list Faculty :=
  match r with
  | First => V1.searchFaculty
  | Later => V2.searchFaculty
  end.

End Either.

(** ** The specification's wording, for comparison with the code *)

Module Spec.
Import JsString JsNumber JsValue Gateway Server.

(** Search: a record is kept if the trimmed lower-cased term is a
    substring of the lower-cased name, department, or subject field. *)
Definition searchKeeps (term : string) (f : Faculty) : Prop :=
  let t := toLowerCase (trim term) in
  isSubstring t (toLowerCase (name f))
  \/ isSubstring t (toLowerCase (department f))
  \/ isSubstring t (toLowerCase (subject f)).

(** The same without the trimming. *)
Definition searchKeepsUntrimmed (term : string) (f : Faculty) : Prop :=
  let t := toLowerCase term in
  isSubstring t (toLowerCase (name f))
  \/ isSubstring t (toLowerCase (department f))
  \/ isSubstring t (toLowerCase (subject f)).

(** Matching policy of one variant: case-insensitive substring
    containment of the query inside the stored name. *)
Definition substringMatch (query stored : string) : Prop :=
  isSubstring (toLowerCase query) (toLowerCase stored).

(** Matching policy of the later variant: exact case-insensitive,
    trimmed equality. *)
Definition exactMatch (query stored : string) : Prop :=
  toLowerCase (trim stored) = toLowerCase (trim query).

(** The stored name of a review row, when it has one. *)
Definition storedName (row : Row) : option string :=
  match nth_error row 0 with
  | Some n => if truthy n then Some n else None
  | None => None
  end.

(** Deduplication preserving first-occurrence order. *)
Fixpoint firstOccurrences (l : list string) : list string :=
  match l with
  | [] => []
  | x :: r => x :: filter (fun y => negb (String.eqb x y)) (firstOccurrences r)
  end.

(** The names of the review source's first column. *)
Definition firstColumnNames (rows : list Row) : list string :=
  filter truthy (map (fun row => cellOr row 0) rows).

(** A name wrapped in a record with the placeholder department, subject
    and mobile. *)
Definition wrap (idAndName : nat * string) : Faculty :=
  {| id := fst idAndName;
     name := snd idAndName;
     department := "Not specified";
     subject := "Not specified";
     mobile := "Not available" |}.

(** The synthetic roster derived from the review rows. *)
Definition syntheticRoster (rows : list Row) : list Faculty :=
  let names := firstOccurrences (firstColumnNames rows) in
  map wrap (combine (seq 1 (List.length names)) names).

(** A roster row whose name is not empty after trimming. *)
Definition rowHasName (row : Row) : bool :=
  negb (String.eqb (trim (cellOr row 0)) "").

(** The read positions, counted from [i], of the rows that have a name. *)
Fixpoint positionsFrom (i : nat) (rows : list Row) : list nat :=
  match rows with
  | [] => []
  | row :: r =>
      if rowHasName row then i :: positionsFrom (S i) r
      else positionsFrom (S i) r
  end.

(** A category entry that is present and parses as a finite number. *)
Definition finiteEntry (index : nat) (row : Row) : bool :=
  match nth_error row index with
  | Some c => isFinite (parseFloat (Str c)) && isFinite (StringToNumber c)
  | None => false
  end.

(** A category entry as the aggregation counts it: the cell is there, is
    not empty and is numeric, its Number value not being NaN; the value
    is that number. *)
Definition numericEntry (index : nat) (row : Row) : option number :=
  match nth_error row index with
  | Some c =>
      if truthy c && negb (numIsNaN (StringToNumber c))
      then Some (StringToNumber c) else None
  | None => None
  end.

(** The numeric entries of a category, in the order of the rows. *)
Fixpoint numericEntries (index : nat) (rows : list Row) : list number :=
  match rows with
  | [] => []
  | row :: r =>
      match numericEntry index row with
      | Some x => x :: numericEntries index r
      | None => numericEntries index r
      end
  end.

(** The arithmetic mean in binary64: the sum from left to right, divided
    by the number of entries. *)
Definition mean (xs : list number) : number :=
  div (fold_left add xs zero) (ofNat (List.length xs)).

(** [n] tenths is the decimal with one fractional digit nearest to
    [q >= 0], the larger one when two are as near. *)
Definition tenthsOf (q : Q) (n : Z) : Prop :=
  (inject_Z n <= 10 * q + (1 # 2))%Q /\ (10 * q + (1 # 2) < inject_Z n + 1)%Q.

(** Nothing, or something that starts with white space. *)
Definition blankHead (s : string) : Prop :=
  match s with
  | EmptyString => True
  | String c _ => isWhite c = true
  end.

(** A cell that is neither blank nor a [0x], [0o] or [0b] literal: what
    is left for a numeric cell is a decimal numeral or an infinity. *)
Definition decimalCell (c : string) : bool :=
  negb (String.eqb (trim c) "")
  && match scanNonDecimal (trim c) with None => true | Some _ => false end.

(** A rating outside [[1, 5]]. *)
Definition outsideScale (rating : value) : Prop :=
  ltb (ToNumber rating) (ofZ 1) = true \/ ltb (ofZ 5) (ToNumber rating) = true.



End Spec.

(** ** Concrete spreadsheets, states and requests *)

Module Scenario.
Import JsString JsNumber JsValue Gateway Server.

(** A process that has just started, some time in November 2026. *)
Definition start : State :=
  {| facultyCache := initialCache; clock := 1793700000000; calls := [] |}.

(** A spreadsheet whose every read answers [rows] and whose appends
    succeed; a remote call takes 120 ms. *)
Definition sheetOf (rows : list Row) : Sheets :=
  {| values_get := fun _ => GetOk (Some rows);
     values_append := fun _ _ => AppendOk;
     latency := fun _ => 120%Z |}.

(** A roster sheet with a row whose name cell is empty. *)
Definition sheetWithBlankRow : Sheets :=
  sheetOf [["Dr. Rao"; "CSE"; "Algorithms"; "9000000001"];
           [""; "EEE"];
           ["Dr. Singh"; "ECE"]].

(** A roster sheet whose every row has a name. *)
Definition rosterSheet : Sheets :=
  sheetOf [["Dr. Rao"; "CSE"; "Algorithms"; "9000000001"];
           ["Dr. Singh"; "ECE"];
           ["Dr. Iyer"; "Mathematics"; "Algebra"]].

(** A process whose cache was filled a minute before [start]. *)
Definition warm : State :=
  {| facultyCache :=
       {| data := Some [{| id := 1; name := "Dr. Rao"; department := "CSE";
                           subject := "Algorithms"; mobile := "9000000001" |}];
          timestamp := 1793699940000 |};
     clock := 1793700000000;
     calls := [] |}.

(** Reviews of two faculty members; the first row has an entry that is
    not finite and an entry of white space. *)
Definition reviews : list Row :=
  [["Dr. Rao"; "5"; "Infinity"; " "; "4"; "72.5"; "4"; "3/11/2026, 10:00:00 am"];
   ["Dr. Rao"; "4"; ""; ""; "5"; "68"; "5"; "3/11/2026, 11:30:00 am"];
   ["Dr. Singh"; "3"; "3"; "3"; "3"; "55.5"; "3"; "4/11/2026, 9:15:00 am"]].

Definition reviewSheet : Sheets := sheetOf reviews.

(** A spreadsheet without the roster sheet: reading its range fails,
    every other read answers the reviews. *)
Definition sheetWithoutRoster : Sheets :=
  {| values_get := fun range =>
       if String.eqb range "Faculty!A2:D"
       then GetFails "Unable to parse range: Faculty!A2:D"
       else GetOk (Some reviews);
     values_append := fun _ _ => AppendOk;
     latency := fun _ => 120%Z |}.

(** A spreadsheet that cannot be reached. *)
Definition sheetDown : Sheets :=
  {| values_get := fun _ => GetFails "getaddrinfo ENOTFOUND sheets.googleapis.com";
     values_append := fun _ _ => AppendFails "getaddrinfo ENOTFOUND sheets.googleapis.com";
     latency := fun _ => 30000%Z |}.

(** The clock reading of [toLocaleString], kept apart from its format. *)
Definition stamp (now : Z) : string := "3/11/2026, 10:00:00 am".

(** The JSON numbers 4.7, 6 and 72.5. *)
Definition fourPointSeven : number := decimalToNumber false 47 (-1).
Definition six : number := ofZ 6.
Definition seventyTwoPointFive : number := decimalToNumber false 725 (-1).

(** A review within the scale. *)
Definition review : ReviewBody.t :=
  {| ReviewBody.name := Str " Dr. Rao ";
     ReviewBody.teaching := Num fourPointSeven;
     ReviewBody.evaluation := Num (ofZ 4);
     ReviewBody.behaviour := Num (ofZ 5);
     ReviewBody.internals := Num (ofZ 3);
     ReviewBody.classAverage := Num seventyTwoPointFive;
     ReviewBody.overall := Num (ofZ 4) |}.

(** The same review with teaching = 6. *)
Definition reviewTeachingSix : ReviewBody.t :=
  {| ReviewBody.name := Str " Dr. Rao ";
     ReviewBody.teaching := Num six;
     ReviewBody.evaluation := Num (ofZ 4);
     ReviewBody.behaviour := Num (ofZ 5);
     ReviewBody.internals := Num (ofZ 3);
     ReviewBody.classAverage := Num seventyTwoPointFive;
     ReviewBody.overall := Num (ofZ 4) |}.


Definition newFaculty : FacultyBody.t :=
  {| FacultyBody.name := Str "Dr. Iyer";
     FacultyBody.department := Str "Mathematics";
     FacultyBody.subject := Undefined;
     FacultyBody.mobile := Undefined |}.

(** The averages of Dr. Rao over [reviews]. *)
Definition raoAverages : FacultyAverages :=
  {| teaching := Str "4.5";
     evaluation := Str "Infinity";
     behaviour := Str "NaN";
     internals := Str "4.5";
     classAverage := Str "70.3";
     overall := Str "4.5";
     count := 2;
     latestReview :=
       ["Dr. Rao"; "5"; "Infinity"; " "; "4"; "72.5"; "4"; "3/11/2026, 10:00:00 am"] |}.

(** Dr. Rao's reviews. *)
Definition raoReviews : list Row :=
  [["Dr. Rao"; "5"; "Infinity"; " "; "4"; "72.5"; "4"; "3/11/2026, 10:00:00 am"];
   ["Dr. Rao"; "4"; ""; ""; "5"; "68"; "5"; "3/11/2026, 11:30:00 am"]].

End Scenario.

(** ** The remaining routes of the roster *)

Module Roster.
Import JsString JsNumber JsValue Gateway Server.

(** A roster record as [res.json] sends it. *)
Definition fieldsOfFaculty (f : Faculty) : list (string * json) :=
  [("id", JNumber (ofNat (id f)));
   ("name", JString (name f));
   ("department", JString (department f));
   ("subject", JString (subject f));
   ("mobile", JString (mobile f))].

Definition jsonOfRoster (l : list Faculty) : json :=
  array (map (fun f => object (fieldsOfFaculty f)) l).

(** [f => f.name.toLowerCase().includes(facultyName.toLowerCase())], the
    test of [facultyData.find] in GET /api/faculty/:name. *)
Definition nameContains (facultyName : string) (f : Faculty) : bool :=
  includes (toLowerCase (name f)) (toLowerCase facultyName).

(** A string without a percent sign. *)
Fixpoint noPercent (s : string) : bool :=
  match s with
  | EmptyString => true
  | String c r => negb (Ascii.eqb c "%") && noPercent r
  end.

Section Config.
Variables REVIEWS_SHEET FACULTY_SHEET : string.

(** [new Date().toISOString()]. *)
Variable toISOString : Z -> string.

(** Which revision's [searchFaculty] and [getFacultyAverages] the routes
    call; the later revision leaves the routes as they are. *)
Variable revision : Either.Revision.

(** [searchFaculty(facultyData, req.query.search)]: [toLowerCase] exists on
    strings only. *)
Definition searchWith (facultyData : list Faculty) (searchTerm : value)
  : M (list Faculty) :=
  match searchTerm with
  | Str s => ret (Either.searchFaculty revision facultyData s)
  | _ => throw "searchTerm.toLowerCase is not a function"
  end.

(** GET /api/faculty; [search] is [req.query.search]. *)
Definition apiFaculty (w : Sheets) (search : value) : M Response :=
  tryCatch
    (facultyData <- getFacultyDataFromSheets REVIEWS_SHEET FACULTY_SHEET w ;;
     if ToBoolean search then
       searchResults <- searchWith facultyData search ;;
       send 200 [("success", JBool true);
                 ("data", jsonOfRoster searchResults);
                 ("total", JNumber (ofNat (List.length searchResults)));
                 ("message", JString ("Found "
                                      ++ NumberToString (ofNat (List.length searchResults))
                                      ++ " faculty members"))]
     else
       send 200 [("success", JBool true);
                 ("data", jsonOfRoster facultyData);
                 ("total", JNumber (ofNat (List.length facultyData)));
                 ("message", JString ("Retrieved "
                                      ++ NumberToString (ofNat (List.length facultyData))
                                      ++ " faculty members"))])
    (fun e =>
       send 500 [("success", JBool false);
                 ("error", JString "Failed to fetch faculty list");
                 ("details", JString e)]).

(** GET /api/faculty/:name; [param] is [req.params.name]. *)
Definition apiFacultyByName (w : Sheets) (param : string) : M Response :=
  tryCatch
    (facultyName <-
       match decodeURIComponent (Str param) with
       | Some s => ret s
       | None => throw "URI malformed"
       end ;;
     facultyData <- getFacultyDataFromSheets REVIEWS_SHEET FACULTY_SHEET w ;;
     match List.find (nameContains facultyName) facultyData with
     | Some faculty =>
         averages <- Either.getFacultyAverages revision REVIEWS_SHEET w (name faculty) ;;
         send 200 [("success", JBool true);
                   ("data", object
                      (fieldsOfFaculty faculty
                       ++ [("statistics",
                            match averages with
                            | Some a => jsonOfAverages a
                            | None => JNull
                            end)])%list)]
     | None =>
         send 404 [("success", JBool false);
                   ("error", JString "Faculty not found");
                   ("message", JString ("No faculty found with name containing: "
                                        ++ facultyName))]
     end)
    (fun e =>
       send 500 [("success", JBool false);
                 ("error", JString "Internal server error");
                 ("details", JString e)]).

(** POST /api/refresh-cache. *)
Definition apiRefreshCache (w : Sheets) : M Response :=
  tryCatch
    (resetTimestamp ;;;
     facultyData <- getFacultyDataFromSheets REVIEWS_SHEET FACULTY_SHEET w ;;
     now <- dateNow ;;
     send 200 [("success", JBool true);
               ("message", JString "Faculty cache refreshed successfully");
               ("data", object
                  [("totalFaculty", JNumber (ofNat (List.length facultyData)));
                   ("lastUpdated", JString (toISOString now))])])
    (fun e =>
       send 500 [("success", JBool false);
                 ("error", JString "Failed to refresh cache");
                 ("details", JString e)]).

End Config.
End Roster.

(** ** What the write routes check and store *)

Module Writes.
Import JsString JsNumber JsValue Gateway Server.

(** Neither of the two checks of POST /api/submit-review rejects the body:
    not [!facultyName || isNaN(teaching) || ... || isNaN(overall)], and not
    [ratings.some(rating => rating < 1 || rating > 5)]. *)
Definition passesValidation (b : ReviewBody.t) : bool :=
  negb (negb (ToBoolean (ReviewBody.name b)) || isNaN (ReviewBody.teaching b)
        || isNaN (ReviewBody.evaluation b) || isNaN (ReviewBody.behaviour b)
        || isNaN (ReviewBody.internals b) || isNaN (ReviewBody.classAverage b)
        || isNaN (ReviewBody.overall b))
  && negb (existsb outOfRange
             [ReviewBody.teaching b; ReviewBody.evaluation b;
              ReviewBody.behaviour b; ReviewBody.internals b;
              ReviewBody.overall b]).

(** The array [reviewData] for a name that is the string [s], built when
    the clock shows [now]. *)
Definition reviewData (toLocaleString : Z -> string) (b : ReviewBody.t)
    (s : string) (now : Z) : list value :=
  [Str (trim s);
   Num (parseInt (ReviewBody.teaching b));
   Num (parseInt (ReviewBody.evaluation b));
   Num (parseInt (ReviewBody.behaviour b));
   Num (parseInt (ReviewBody.internals b));
   Num (parseFloat (ReviewBody.classAverage b));
   Num (parseInt (ReviewBody.overall b));
   Str (toLocaleString now)].

(** The body with another class average. *)
Definition withClassAverage (b : ReviewBody.t) (c : value) : ReviewBody.t :=
  {| ReviewBody.name := ReviewBody.name b;
     ReviewBody.teaching := ReviewBody.teaching b;
     ReviewBody.evaluation := ReviewBody.evaluation b;
     ReviewBody.behaviour := ReviewBody.behaviour b;
     ReviewBody.internals := ReviewBody.internals b;
     ReviewBody.classAverage := c;
     ReviewBody.overall := ReviewBody.overall b |}.

(** The append range of a revision's submit route. *)
Definition reviewRange (rev : Either.Revision) (REVIEWS_SHEET : string) : string :=
  match rev with
  | Either.First => REVIEWS_SHEET ++ "!A2:I"
  | Either.Later => REVIEWS_SHEET ++ "!A2:H"
  end.

(** What [value?.trim() || ''] gives; [None] where it throws. *)
Definition optionalText (v : value) : option string :=
  match v with
  | Undefined | Null => Some EmptyString
  | Str s => Some (trim s)
  | _ => None
  end.

End Writes.

(** ** More concrete inputs *)

Module Cases.
Import JsString JsNumber JsValue Gateway Server.

(** The roster that [Scenario.rosterSheet] gives. *)
Definition rao : Faculty :=
  {| id := 1; name := "Dr. Rao"; department := "CSE";
     subject := "Algorithms"; mobile := "9000000001" |}.

Definition singh : Faculty :=
  {| id := 2; name := "Dr. Singh"; department := "ECE";
     subject := ""; mobile := "" |}.

Definition iyer : Faculty :=
  {| id := 3; name := "Dr. Iyer"; department := "Mathematics";
     subject := "Algebra"; mobile := "" |}.

Definition roster : list Faculty := [rao; singh; iyer].

(** A spreadsheet with [Scenario.rosterSheet]'s roster and
    [Scenario.reviews]. *)
Definition college : Sheets :=
  {| values_get := fun range =>
       if String.eqb range "Faculty!A2:D"
       then GetOk (Some [["Dr. Rao"; "CSE"; "Algorithms"; "9000000001"];
                         ["Dr. Singh"; "ECE"];
                         ["Dr. Iyer"; "Mathematics"; "Algebra"]])
       else GetOk (Some Scenario.reviews);
     values_append := fun _ _ => AppendOk;
     latency := fun _ => 120%Z |}.

(** [Scenario.review] under a name of three spaces. *)
Definition blankNameReview : ReviewBody.t :=
  {| ReviewBody.name := Str "   ";
     ReviewBody.teaching := ReviewBody.teaching Scenario.review;
     ReviewBody.evaluation := ReviewBody.evaluation Scenario.review;
     ReviewBody.behaviour := ReviewBody.behaviour Scenario.review;
     ReviewBody.internals := ReviewBody.internals Scenario.review;
     ReviewBody.classAverage := ReviewBody.classAverage Scenario.review;
     ReviewBody.overall := ReviewBody.overall Scenario.review |}.

(** A class average of -1000. *)
Definition minusThousand : value := Num (ofZ (-1000)).

(** The clock reading of [toISOString], kept apart from its format. *)
Definition isoStamp (now : Z) : string := "2026-11-03T04:40:00.120Z".

End Cases.

(** * Proofs *)

(** ** Strings *)

Module JsStringFacts.
Import JsString.

Lemma startsWith_spec s t :
  startsWith s t = true <-> exists post, s = t ++ post.
Proof.
  revert s; induction t as [|b t IH]; intros s; simpl.
  - split; [intros _; now exists s | reflexivity].
  - destruct s as [|a s]; simpl.
    + split; [discriminate | intros [post H]; discriminate].
    + rewrite andb_true_iff, IH, Ascii.eqb_eq. split.
      * intros [-> [post ->]]. now exists post.
      * intros [post H]. injection H as -> ->. split; [reflexivity | now exists post].
Qed.

Lemma includes_spec s t : includes s t = true <-> isSubstring t s.
Proof.
  unfold isSubstring. induction s as [|a s IH]; simpl.
  - rewrite orb_false_r, startsWith_spec. split.
    + intros [post H]. now exists "", post.
    + intros [pre [post H]]. destruct pre; simpl in H.
      * now exists post.
      * discriminate.
  - rewrite orb_true_iff, IH, startsWith_spec. split.
    + intros [[post H] | [pre [post H]]].
      * now exists "", post.
      * exists (String a pre), post. simpl. now rewrite H.
    + intros [pre [post H]]. destruct pre as [|b pre]; simpl in H.
      * left. now exists post.
      * right. injection H as _ H. now exists pre, post.
Qed.

Lemma isWhite_lowerChar c : isWhite (lowerChar c) = isWhite c.
Proof. destruct c as [[] [] [] [] [] [] [] []]; reflexivity. Qed.

Lemma toLowerCase_trimStart s :
  trimStart (toLowerCase s) = toLowerCase (trimStart s).
Proof.
  induction s as [|c s IH]; simpl; [reflexivity|].
  rewrite isWhite_lowerChar. now destruct (isWhite c).
Qed.

Lemma toLowerCase_trimEnd s :
  trimEnd (toLowerCase s) = toLowerCase (trimEnd s).
Proof.
  induction s as [|c s IH]; simpl; [reflexivity|].
  rewrite IH, isWhite_lowerChar.
  destruct (trimEnd s); simpl; [now destruct (isWhite c) | reflexivity].
Qed.

(** Lower-casing and trimming commute. *)
Lemma toLowerCase_trim s : trim (toLowerCase s) = toLowerCase (trim s).
Proof. unfold trim. now rewrite toLowerCase_trimStart, toLowerCase_trimEnd. Qed.

Lemma truthy_true s : truthy s = true <-> s <> "".
Proof. destruct s; simpl; split; congruence. Qed.

End JsStringFacts.

(** ** Numbers *)

Module JsNumberFacts.
Import JsString JsNumber.

Lemma fraction_positive m e :
  (0 < fst (fraction m e))%Z /\ (0 < snd (fraction m e))%Z.
Proof.
  unfold fraction. destruct (0 <=? e)%Z eqn:E; cbn [fst snd].
  - apply Z.leb_le in E. split; [|lia].
    apply Z.mul_pos_pos; [lia | now apply Z.pow_pos_nonneg].
  - apply Z.leb_gt in E. split; [lia | apply Z.pow_pos_nonneg; lia].
Qed.

Lemma toQ_abs s m e :
  Qabs (toQ (S754_finite s m e))
  = fst (fraction m e) # Z.to_pos (snd (fraction m e)).
Proof.
  unfold toQ. destruct (fraction_positive m e) as [N D].
  destruct (fraction m e) as [num den]. cbn [fst snd] in *.
  destruct num as [|p|p]; try lia. now destruct s.
Qed.

(** [roundScaled] takes the larger integer on a tie. *)
Lemma roundScaled_half_up num den f :
  (0 <= num)%Z -> (0 < den)%Z ->
  (0 <= roundScaled num den f
   /\ 2 * den * roundScaled num den f <= 2 * (num * 10 ^ Z.of_nat f) + den
   /\ 2 * (num * 10 ^ Z.of_nat f) + den < 2 * den * (roundScaled num den f + 1))%Z.
Proof.
  intros N D. unfold roundScaled.
  set (X := (num * 10 ^ Z.of_nat f)%Z).
  assert (PX : (0 <= X)%Z) by (apply Z.mul_nonneg_nonneg; [lia | apply Z.pow_nonneg; lia]).
  replace (2 * num * 10 ^ Z.of_nat f + den)%Z with (2 * X + den)%Z by (unfold X; ring).
  split; [apply Z.div_pos; lia|]. split.
  - apply Z.mul_div_le; lia.
  - apply (Z.mul_succ_div_gt (2 * X + den) (2 * den)); lia.
Qed.

(** For a finite number below [10^21] in magnitude, [toFixed(1)] writes
    the tenths of its magnitude, rounded to the nearest and upwards on a
    tie, after the sign. *)
Lemma toFixed_tenthsOf s m e :
  (Qabs (toQ (S754_finite s m e)) < inject_Z (10 ^ 21))%Q ->
  exists n : Z,
    (0 <= n)%Z
    /\ toFixed (S754_finite s m e) 1 = (if s then "-" else "") ++ fixedPoint n 1
    /\ Spec.tenthsOf (Qabs (toQ (S754_finite s m e))) n.
Proof.
  rewrite toQ_abs. intro B. unfold toFixed.
  destruct (fraction_positive m e) as [N D].
  destruct (fraction m e) as [num den]. cbn [fst snd] in *.
  assert (B' : (num < den * 10 ^ 21)%Z).
  { unfold Qlt, inject_Z in B. cbn [Qnum Qden] in B.
    rewrite Z2Pos.id in B by exact D. lia. }
  apply Z.leb_gt in B'. rewrite B'.
  destruct (roundScaled_half_up num den 1 (Z.lt_le_incl _ _ N) D) as [P [L U]].
  exists (roundScaled num den 1). split; [exact P|]. split; [reflexivity|].
  change (10 ^ Z.of_nat 1)%Z with 10%Z in L, U.
  set (n := roundScaled num den 1) in *.
  unfold Spec.tenthsOf, Qle, Qlt, Qplus, Qmult, inject_Z. cbn [Qnum Qden].
  rewrite ?Pos.mul_1_l, ?Pos.mul_1_r, ?Z2Pos.id by exact D.
  rewrite Pos2Z.inj_mul, Z2Pos.id by exact D.
  split; nia.
Qed.

End JsNumberFacts.

(** ** Writing a rating and reading it back with [parseInt] *)

Module ParseFacts.
Import JsString JsNumber JsNumberFacts JsValue.

Local Open Scope Z_scope.






Section OnScale.
Variables (m : positive) (e : Z).
Hypothesis exponent : e = -52 \/ e = -51 \/ e = -50.
Hypothesis mantissa : 2 ^ 52 <= Zpos m < 2 ^ 53.
Hypothesis atMostFive : e = -50 -> Zpos m <= 5629499534213120.

Local Abbreviation den := (2 ^ (- e)).
Local Abbreviation j := (Zpos m / 2 ^ (- e)).








End OnScale.



End ParseFacts.

(** ** Numerals: where [parseFloat] and [Number] agree *)

Module NumeralFacts.
Import JsString JsStringFacts JsNumber JsValue.

Lemma trimEnd_split s : exists post, s = trimEnd s ++ post /\ Spec.blankHead post.
Proof.
  induction s as [|c s [post [E B]]]; [now exists ""|].
  simpl. destruct (trimEnd s) as [|d t] eqn:T.
  - simpl in E. subst post. destruct (isWhite c) eqn:W.
    + exists (String c s). now split.
    + exists s. now split.
  - exists post. split; [|exact B]. cbn [append]. f_equal. exact E.
Qed.

Lemma trimStart_trim s : exists post, trimStart s = trim s ++ post /\ Spec.blankHead post.
Proof. apply trimEnd_split. Qed.

Lemma white_no_digit b c : isWhite c = true -> digitBelow b c = None.
Proof.
  intro W. unfold digitBelow.
  assert (H : hexDigitOf c = None)
    by (destruct c as [[] [] [] [] [] [] [] []]; try discriminate W; reflexivity).
  now rewrite H.
Qed.

Lemma spanDigits_append b s post :
  Spec.blankHead post ->
  spanDigits b (s ++ post) = (fst (spanDigits b s), snd (spanDigits b s) ++ post).
Proof.
  intro B. induction s as [|c s IH]; simpl.
  - destruct post as [|d post]; [reflexivity|]. simpl in *.
    now rewrite (white_no_digit b d B).
  - destruct (digitBelow b c); [|reflexivity].
    rewrite IH. now destruct (spanDigits b s).
Qed.

Lemma scanSign_append s post :
  Spec.blankHead post ->
  scanSign (s ++ post) = (fst (scanSign s), snd (scanSign s) ++ post).
Proof.
  intro B. destruct s as [|c s]; simpl.
  - destruct post as [|d post]; [reflexivity|]. simpl in B.
    destruct d as [[] [] [] [] [] [] [] []]; try discriminate B; reflexivity.
  - destruct c as [[] [] [] [] [] [] [] []]; reflexivity.
Qed.

Lemma scanExponent_append s post :
  Spec.blankHead post ->
  scanExponent (s ++ post) = (fst (scanExponent s), snd (scanExponent s) ++ post).
Proof.
  intro B. destruct s as [|c s].
  - destruct post as [|d post]; [reflexivity|]. simpl in B.
    destruct d as [[] [] [] [] [] [] [] []]; try discriminate B; reflexivity.
  - cbn [append scanExponent].
    destruct (Ascii.eqb c "e" || Ascii.eqb c "E"); [|reflexivity].
    rewrite (scanSign_append s post B).
    destruct (scanSign s) as [neg r1]. cbn [fst snd].
    rewrite (spanDigits_append 10 r1 post B).
    destruct (spanDigits 10 r1) as [ds r2]. cbn [fst snd].
    now destruct (isNil ds).
Qed.

Lemma scanDecimal_append s post :
  Spec.blankHead post ->
  scanDecimal (s ++ post)
  = match scanDecimal s with
    | Some (D, E, r) => Some (D, E, r ++ post)
    | None => None
    end.
Proof.
  intro B. unfold scanDecimal.
  rewrite (spanDigits_append 10 s post B).
  destruct (spanDigits 10 s) as [ds1 r1]. cbn [fst snd].
  assert (X : forall (m : option (Z * Z * string)),
             match match m with
                   | Some (D, E, r) => Some (D, E, r ++ post)
                   | None => None
                   end with
             | Some (D, E, r) => let (x, r') := scanExponent r in Some (D, (E + x)%Z, r')
             | None => None
             end
             = match match m with
                     | Some (D, E, r) =>
                         let (x, r') := scanExponent r in Some (D, (E + x)%Z, r')
                     | None => None
                     end with
               | Some (D, E, r) => Some (D, E, r ++ post)
               | None => None
               end).
  { intros [[[D E] r]|]; [|reflexivity].
    rewrite (scanExponent_append r post B). now destruct (scanExponent r). }
  rewrite <- X. f_equal.
  destruct r1 as [|c r1].
  - simpl. destruct post as [|d post].
    + now destruct (isNil ds1).
    + simpl in B. destruct (isNil ds1);
        destruct d as [[] [] [] [] [] [] [] []]; try discriminate B; reflexivity.
  - cbn [append].
    destruct (Ascii.eqb c ".") eqn:P.
    + apply Ascii.eqb_eq in P. subst c.
      rewrite (spanDigits_append 10 r1 post B).
      destruct (spanDigits 10 r1) as [ds2 r2]. cbn [fst snd].
      now destruct (isNil ds1 && isNil ds2).
    + assert (N : c <> "."%char) by now apply Ascii.eqb_neq.
      destruct c as [[] [] [] [] [] [] [] []]; try congruence;
        now destruct (isNil ds1).
Qed.

Lemma scanDecimal_head s D E r post :
  scanDecimal s = Some (D, E, r) -> startsWith (s ++ post) "Infinity" = false.
Proof.
  destruct s as [|c s]; [discriminate|]. cbn [append].
  destruct (Ascii.eqb c "I") eqn:I; [|now simpl; rewrite I].
  apply Ascii.eqb_eq in I. subst c. discriminate.
Qed.

(** A string that [Number] reads as a number, and that is neither blank
    nor a [0x], [0o] or [0b] literal, is read by [parseFloat] as the same
    number. *)
Lemma parseFloat_decimal s :
  numIsNaN (StringToNumber s) = false ->
  Spec.decimalCell s = true ->
  parseFloatString s = StringToNumber s.
Proof.
  unfold Spec.decimalCell, StringToNumber, parseFloatString.
  intros N C. apply andb_true_iff in C. destruct C as [C1 C2].
  apply negb_true_iff, String.eqb_neq in C1.
  destruct (trimStart_trim s) as [post [T B]]. rewrite T.
  destruct (trim s) as [|c t] eqn:E; [congruence|].
  destruct (scanNonDecimal (String c t)); [discriminate|].
  rewrite (scanSign_append (String c t) post B).
  destruct (scanSign (String c t)) as [neg r]. cbn [fst snd].
  destruct (String.eqb r "Infinity") eqn:I.
  - apply String.eqb_eq in I. subst r. reflexivity.
  - rewrite (scanDecimal_append r post B).
    destruct (scanDecimal r) as [[[D X] rest]|] eqn:S; [|discriminate N].
    destruct rest; [|discriminate N].
    now rewrite (scanDecimal_head r D X "" post S).
Qed.

End NumeralFacts.

(** ** Roster search and the two matching policies *)

Module SearchFacts.
Import JsString JsStringFacts JsNumber JsValue Gateway Server.

Lemma keepsTerm_spec term faculty :
  keepsTerm term faculty = true <->
  isSubstring term (toLowerCase (name faculty))
  \/ isSubstring term (toLowerCase (department faculty))
  \/ isSubstring term (toLowerCase (subject faculty)).
Proof.
  unfold keepsTerm. rewrite !orb_true_iff, !includes_spec. tauto.
Qed.

(** C2, as stated, fails on the first revision: its [searchFaculty] does
    not trim the term, so the term " rao " finds nobody although its
    trimmed lower-cased form occurs in the lower-cased name. *)
Lemma searchFaculty_first_revision_untrimmed :
  let rao := {| id := 1; name := "Dr. Rao"; department := "CSE";
                subject := "Algorithms"; mobile := "" |} in
  Spec.searchKeeps " rao " rao /\ V1.searchFaculty [rao] " rao " = [].
Proof.
  split.
  - left. apply includes_spec. reflexivity.
  - reflexivity.
Qed.

(** C2 (amended).  For all rosters [R] and terms [t], [searchFaculty] of
    the later revision returns exactly the records of [R] for which the
    trimmed lower-cased [t] is a substring of the lower-cased name,
    department or subject, in [R]'s order; the first revision does the same
    with the lower-cased [t] left untrimmed.  Both are functions of their
    two arguments alone: they run outside the handlers' monad. *)
Theorem searchFaculty_filters :
  forall (R : list Faculty) (t : string),
    (exists keep : Faculty -> bool,
        (forall f, keep f = true <-> Spec.searchKeeps t f)
        /\ V2.searchFaculty R t = filter keep R)
    /\ (exists keep : Faculty -> bool,
        (forall f, keep f = true <-> Spec.searchKeepsUntrimmed t f)
        /\ V1.searchFaculty R t = filter keep R).
Proof.
  intros R t. split.
  - exists (keepsTerm (trim (toLowerCase t))). split.
    + intro f. unfold Spec.searchKeeps. rewrite <- toLowerCase_trim.
      apply keepsTerm_spec.
    + reflexivity.
  - exists (keepsTerm (toLowerCase t)). split.
    + intro f. apply keepsTerm_spec.
    + reflexivity.
Qed.

Lemma storedName_some row n :
  Spec.storedName row = Some n <-> nth_error row 0 = Some n /\ truthy n = true.
Proof.
  unfold Spec.storedName. destruct (nth_error row 0) as [c|].
  - destruct (truthy c) eqn:T; split.
    + intros [= ->]. now split.
    + now intros [[= ->] _].
    + discriminate.
    + intros [[= ->] T']. congruence.
  - split; [discriminate | now intros [? _]].
Qed.

Lemma V1_matchesName_spec q row :
  V1.matchesName q row = true <->
  exists n, Spec.storedName row = Some n /\ Spec.substringMatch q n.
Proof.
  unfold V1.matchesName, Spec.substringMatch. split.
  - destruct (nth_error row 0) as [c|] eqn:E; [|discriminate].
    rewrite andb_true_iff, includes_spec. intros [T I].
    exists c. split; [apply storedName_some; now rewrite E | exact I].
  - intros [n [S I]]. apply storedName_some in S as [-> T].
    rewrite T. simpl. now apply includes_spec.
Qed.

Lemma V2_matchesName_spec q row :
  V2.matchesName (trim (toLowerCase q)) row = true <->
  exists n, Spec.storedName row = Some n /\ Spec.exactMatch q n.
Proof.
  unfold V2.matchesName, Spec.exactMatch. split.
  - destruct (nth_error row 0) as [c|] eqn:E; [|discriminate].
    rewrite andb_true_iff, String.eqb_eq, !toLowerCase_trim. intros [T I].
    exists c. split; [apply storedName_some; now rewrite E | exact I].
  - intros [n [S I]]. apply storedName_some in S as [-> T].
    rewrite T. simpl. apply String.eqb_eq. now rewrite !toLowerCase_trim.
Qed.

(** C9.  The first revision of [getFacultyAverages] summarises exactly the
    review rows whose stored name contains the query, case-insensitively,
    in the order read; the later revision exactly those whose stored name
    equals the query, case-insensitively and after trimming both.  The two
    select different rows for the query "Rao" over a review of "Dr. Rao":
    the first returns averages over that row, the later returns [null];
    and so the two functions are not equal. *)
Theorem matching_policies_differ :
  (forall (RS : string) (w : Sheets) (q : string) (st : State),
      exists keep : Row -> bool,
        (forall row,
            keep row = true <->
            exists n, Spec.storedName row = Some n /\ Spec.substringMatch q n)
        /\ fst (V1.getFacultyAverages RS w q st)
           = Returned match values_get w (RS ++ "!A2:I") with
                      | GetOk v => summarize (filter keep (orEmpty v))
                      | GetFails _ => None
                      end)
  /\ (forall (RS : string) (w : Sheets) (q : string) (st : State),
      exists keep : Row -> bool,
        (forall row,
            keep row = true <->
            exists n, Spec.storedName row = Some n /\ Spec.exactMatch q n)
        /\ fst (V2.getFacultyAverages RS w q st)
           = Returned match values_get w (RS ++ "!A2:I") with
                      | GetOk v => summarize (filter keep (orEmpty v))
                      | GetFails _ => None
                      end)
  /\ (exists (w : Sheets) (q : string) (st : State) (a : FacultyAverages),
      values_get w ("Reviews" ++ "!A2:I") = GetOk (Some [["Dr. Rao"; "5"]])
      /\ fst (V1.getFacultyAverages "Reviews" w q st) = Returned (Some a)
      /\ count a = 1%nat
      /\ fst (V2.getFacultyAverages "Reviews" w q st) = Returned None)
  /\ V1.getFacultyAverages <> V2.getFacultyAverages.
Proof.
  split; [|split; [|split]].
  - intros RS w q st. exists (V1.matchesName q). split.
    + intro row. apply V1_matchesName_spec.
    + unfold V1.getFacultyAverages, tryCatch, bind, sheetsGet, ret.
      now destruct (values_get w (RS ++ "!A2:I")).
  - intros RS w q st. exists (V2.matchesName (trim (toLowerCase q))). split.
    + intro row. apply V2_matchesName_spec.
    + unfold V2.getFacultyAverages, tryCatch, bind, sheetsGet, ret.
      now destruct (values_get w (RS ++ "!A2:I")).
  - exists {| values_get := fun _ => GetOk (Some [["Dr. Rao"; "5"]]);
              values_append := fun _ _ => AppendOk;
              latency := fun _ => 0%Z |},
           "Rao",
           {| facultyCache := initialCache; clock := 0; calls := [] |}.
    eexists. split; [reflexivity|]. split; [vm_compute; reflexivity|].
    split; reflexivity.
  - intro H.
    set (w := {| values_get := fun _ => GetOk (Some [["Dr. Rao"; "5"]]);
                 values_append := fun _ _ => AppendOk;
                 latency := fun _ => 0%Z |}).
    set (st := {| facultyCache := initialCache; clock := 0; calls := [] |}).
    assert (E : fst (V1.getFacultyAverages "Reviews" w "Rao" st)
                = fst (V2.getFacultyAverages "Reviews" w "Rao" st))
      by now rewrite H.
    vm_compute in E. discriminate E.
Qed.

End SearchFacts.

(** ** The faculty cache *)

Module CacheFacts.
Import JsString JsStringFacts JsNumber JsValue Gateway Server.

Lemma cacheHit_true c now :
  cacheHit c now = true <->
  exists d, data c = Some d /\ (now - timestamp c < CACHE_DURATION)%Z.
Proof.
  unfold cacheHit. destruct (data c) as [d|].
  - rewrite Z.ltb_lt. split; [intro H; now exists d | now intros [? [_ H]]].
  - split; [discriminate | now intros [? [? _]]].
Qed.

Lemma atTime_clock st : atTime (clock st) st = st.
Proof. now destruct st. Qed.

(** *** Sets of names *)

Lemma filter_filter {A} (p q : A -> bool) l :
  filter p (filter q l) = filter (fun x => q x && p x) l.
Proof.
  induction l as [|x l IH]; simpl; [reflexivity|].
  destruct (q x); simpl; [destruct (p x)|]; now rewrite IH.
Qed.

Lemma fold_setAdd l acc :
  fold_left setAdd l acc =
  (acc ++ filter (fun y => negb (existsb (String.eqb y) acc)) (Spec.firstOccurrences l))%list.
Proof.
  revert acc. induction l as [|x l IH]; intro acc; simpl.
  - now rewrite app_nil_r.
  - rewrite IH. unfold setAdd. destruct (existsb (String.eqb x) acc) eqn:E; simpl.
    + f_equal. rewrite filter_filter. apply filter_ext. intro y.
      destruct (String.eqb x y) eqn:XY; simpl; [|reflexivity].
      apply String.eqb_eq in XY. subst y. now rewrite E.
    + rewrite <- app_assoc. simpl. do 2 f_equal. rewrite filter_filter.
      apply filter_ext. intro y. rewrite existsb_app. simpl.
      rewrite orb_false_r, negb_orb, (String.eqb_sym y x). apply andb_comm.
Qed.

(** [new Set(l)] spread into an array is [l] without its repetitions, in
    the order of the first occurrences. *)
Lemma newSet_firstOccurrences l : newSet l = Spec.firstOccurrences l.
Proof.
  unfold newSet. rewrite fold_setAdd. simpl.
  induction (Spec.firstOccurrences l) as [|x r IH]; simpl; congruence.
Qed.

Lemma firstOccurrences_In l x : In x (Spec.firstOccurrences l) <-> In x l.
Proof.
  induction l as [|y l IH]; simpl; [tauto|].
  rewrite filter_In, IH, negb_true_iff. split.
  - tauto.
  - intros [-> | H]; [now left|].
    destruct (String.eqb y x) eqn:E; [left; now apply String.eqb_eq | right; now split].
Qed.

Lemma firstOccurrences_NoDup l : NoDup (Spec.firstOccurrences l).
Proof.
  induction l as [|y l IH]; simpl; constructor.
  - rewrite filter_In, negb_true_iff, String.eqb_neq. tauto.
  - now apply NoDup_filter.
Qed.

Lemma firstColumn_names rows : firstColumn rows = Spec.firstColumnNames rows.
Proof.
  unfold Spec.firstColumnNames. induction rows as [|row rows IH]; simpl; [reflexivity|].
  destruct row as [|n cells]; simpl; [exact IH|].
  change (cellOr (n :: cells) 0) with n.
  destruct (truthy n); now rewrite IH.
Qed.

Lemma mapFrom_placeholder i names :
  mapFrom placeholder i names =
  map Spec.wrap (combine (seq (S i) (List.length names)) names).
Proof.
  revert i. induction names as [|n names IH]; intro i; simpl; [reflexivity|].
  rewrite IH. f_equal. unfold placeholder, Spec.wrap. simpl. f_equal. lia.
Qed.

Lemma syntheticRoster_names rows :
  map name (Spec.syntheticRoster rows)
  = Spec.firstOccurrences (Spec.firstColumnNames rows).
Proof.
  unfold Spec.syntheticRoster.
  generalize (Spec.firstOccurrences (Spec.firstColumnNames rows)) as names.
  generalize 1%nat. intros i names. revert i.
  induction names as [|n names IH]; intro i; simpl; [reflexivity|].
  now rewrite IH.
Qed.

Lemma syntheticRoster_ids rows :
  map id (Spec.syntheticRoster rows)
  = seq 1 (List.length (Spec.syntheticRoster rows)).
Proof.
  unfold Spec.syntheticRoster.
  generalize (Spec.firstOccurrences (Spec.firstColumnNames rows)) as names.
  generalize 1%nat. intros i names. revert i.
  induction names as [|n names IH]; intro i; simpl; [reflexivity|].
  now rewrite IH.
Qed.

(** *** Read positions *)

Lemma hasName_facultyOfRow row i :
  hasName (facultyOfRow row i) = Spec.rowHasName row.
Proof. reflexivity. Qed.

Lemma ids_positions i rows :
  map id (filter hasName (mapFrom facultyOfRow i rows))
  = Spec.positionsFrom (S i) rows.
Proof.
  revert i. induction rows as [|row rows IH]; intro i; simpl; [reflexivity|].
  rewrite hasName_facultyOfRow. destruct (Spec.rowHasName row); simpl.
  - rewrite IH. f_equal. lia.
  - apply IH.
Qed.

Lemma positionsFrom_bounds i rows k :
  In k (Spec.positionsFrom i rows) ->
  (i <= k < i + List.length rows)%nat
  /\ exists row, nth_error rows (k - i) = Some row /\ Spec.rowHasName row = true.
Proof.
  revert i. induction rows as [|row rows IH]; intro i; simpl; [tauto|].
  destruct (Spec.rowHasName row) eqn:E; simpl.
  - intros [<- | H].
    + split; [lia|]. exists row. now rewrite Nat.sub_diag.
    + destruct (IH _ H) as [B [r [N R]]]. split; [lia|].
      exists r. split; [|exact R].
      replace (k - i)%nat with (S (k - S i)) by lia. exact N.
  - intro H. destruct (IH _ H) as [B [r [N R]]]. split; [lia|].
    exists r. split; [|exact R].
    replace (k - i)%nat with (S (k - S i)) by lia. exact N.
Qed.

Lemma positionsFrom_increasing i rows :
  StronglySorted lt (Spec.positionsFrom i rows).
Proof.
  revert i. induction rows as [|row rows IH]; intro i; simpl; [constructor|].
  destruct (Spec.rowHasName row); [|apply IH].
  constructor; [apply IH|]. apply Forall_forall. intros k H.
  apply positionsFrom_bounds in H. lia.
Qed.

Lemma positionsFrom_all i rows :
  forallb Spec.rowHasName rows = true ->
  Spec.positionsFrom i rows = seq i (List.length rows).
Proof.
  revert i. induction rows as [|row rows IH]; intro i; simpl; [reflexivity|].
  rewrite andb_true_iff. intros [-> H]. now rewrite IH.
Qed.

Lemma mapFrom_facultyOfRow_In i rows f :
  In f (mapFrom facultyOfRow i rows) ->
  exists row, nth_error rows (id f - 1 - i) = Some row
              /\ f = facultyOfRow row (id f - 1) /\ (i <= id f - 1)%nat.
Proof.
  revert i. induction rows as [|row rows IH]; intros i F; simpl in F; [tauto|].
  destruct F as [<- | F].
  - exists row. simpl. replace (i + 1 - 1 - i)%nat with 0%nat by lia.
    replace (i + 1 - 1)%nat with i by lia. repeat split. lia.
  - destruct (IH _ F) as [r [N [E L]]]. exists r.
    replace (id f - 1 - i)%nat with (S (id f - 1 - S i)) by lia.
    repeat split; [exact N | exact E | lia].
Qed.

Lemma filter_hasName l : Forall (fun f => trim (name f) <> "") (filter hasName l).
Proof.
  apply Forall_forall. intros f H. apply filter_In in H as [_ H].
  unfold hasName in H. now apply negb_true_iff, String.eqb_neq in H.
Qed.

Section Config.
Variables REVIEWS_SHEET FACULTY_SHEET : string.

Local Abbreviation get := (getFacultyDataFromSheets REVIEWS_SHEET FACULTY_SHEET).
Local Abbreviation rosterRange := (FACULTY_SHEET ++ "!A2:D").
Local Abbreviation reviewRange := (REVIEWS_SHEET ++ "!A2:A").

(** A fresh cache is served as it is: no call, no change. *)
Lemma get_hit w st cached :
  cacheHit (facultyCache st) (clock st) = true ->
  data (facultyCache st) = Some cached ->
  get w st = (Returned cached, st).
Proof.
  intros H D. unfold getFacultyDataFromSheets, tryCatch, bind, getCache, dateNow.
  rewrite H, D. reflexivity.
Qed.

(** A miss with a readable roster sheet repopulates the cache. *)
Lemma get_repopulates w st v :
  cacheHit (facultyCache st) (clock st) = false ->
  values_get w rosterRange = GetOk v ->
  let roster := filter hasName (mapIndexed facultyOfRow (orEmpty v)) in
  get w st =
  (Returned roster,
   {| facultyCache := {| data := Some roster;
                         timestamp := clock st + latency w rosterRange |};
      clock := clock st + latency w rosterRange;
      calls := calls st ++ [CallGet rosterRange] |}).
Proof.
  intros H G. unfold getFacultyDataFromSheets, tryCatch, bind, getCache,
    dateNow, sheetsGet, setCache, ret.
  rewrite H, G. reflexivity.
Qed.

(** A miss with an unreadable roster sheet hands over to the fallback. *)
Lemma get_falls_back w st e :
  cacheHit (facultyCache st) (clock st) = false ->
  values_get w rosterRange = GetFails e ->
  get w st =
  getFacultyFromReviews REVIEWS_SHEET w (remote w rosterRange (CallGet rosterRange) st).
Proof.
  intros H G. unfold getFacultyDataFromSheets, tryCatch at 1, bind, getCache,
    dateNow, sheetsGet.
  rewrite H, G. reflexivity.
Qed.

Lemma fallback_result w st :
  getFacultyFromReviews REVIEWS_SHEET w st =
  (Returned
     match values_get w reviewRange with
     | GetOk v => mapIndexed placeholder (newSet (firstColumn (orEmpty v)))
     | GetFails _ => []
     end,
   remote w reviewRange (CallGet reviewRange) st).
Proof.
  unfold getFacultyFromReviews, tryCatch, bind, sheetsGet, ret.
  now destruct (values_get w reviewRange).
Qed.

(** The fallback leaves the cache as it was. *)
Lemma get_cases w st :
  (exists cached, cacheHit (facultyCache st) (clock st) = true
                  /\ data (facultyCache st) = Some cached
                  /\ get w st = (Returned cached, st))
  \/ (exists v, cacheHit (facultyCache st) (clock st) = false
                /\ values_get w rosterRange = GetOk v
                /\ get w st =
                   (Returned (filter hasName (mapIndexed facultyOfRow (orEmpty v))),
                    {| facultyCache :=
                         {| data := Some (filter hasName (mapIndexed facultyOfRow (orEmpty v)));
                            timestamp := clock st + latency w rosterRange |};
                       clock := clock st + latency w rosterRange;
                       calls := calls st ++ [CallGet rosterRange] |}))
  \/ (exists e roster st', cacheHit (facultyCache st) (clock st) = false
                /\ values_get w rosterRange = GetFails e
                /\ get w st = (Returned roster, st')
                /\ facultyCache st' = facultyCache st).
Proof.
  destruct (cacheHit (facultyCache st) (clock st)) eqn:H.
  - left. destruct (proj1 (cacheHit_true _ _) H) as [d [D _]].
    exists d. repeat split; [exact D | now apply get_hit].
  - destruct (values_get w rosterRange) as [e|v] eqn:G.
    + right; right. exists e. rewrite (get_falls_back w st e H G), fallback_result.
      eexists _, _. repeat split.
    + right; left. exists v. repeat split. now apply get_repopulates.
Qed.

(** C3 (amended).  Two calls of [getFacultyDataFromSheets] with no write
    in between, the second less than five minutes ([CACHE_DURATION]) after
    the roster was last read from the roster sheet with success: by the
    first call itself, the window then counting from the moment that read
    returned, or before the first call, when that call was served from the
    cache.  Then the second call returns what the first returned, issues
    no remote call at all and leaves the cache as it is, whatever the
    spreadsheet holds by then. *)
Theorem get_twice_within_window :
  forall (w1 w2 : Sheets) (st : State) (t2 : Z),
    let first := get w1 st in
    ((exists d, data (facultyCache st) = Some d
                /\ (clock st - timestamp (facultyCache st) < CACHE_DURATION)%Z
                /\ (t2 - timestamp (facultyCache st) < CACHE_DURATION)%Z)
     \/ ((data (facultyCache st) = None
          \/ (CACHE_DURATION <= clock st - timestamp (facultyCache st))%Z)
         /\ (exists v, values_get w1 rosterRange = GetOk v)
         /\ (t2 - clock (snd first) < CACHE_DURATION)%Z)) ->
    (exists roster, fst first = Returned roster)
    /\ get w2 (atTime t2 (snd first)) = (fst first, atTime t2 (snd first))
    /\ calls (snd (get w2 (atTime t2 (snd first)))) = calls (snd first)
    /\ CACHE_DURATION = 300000%Z.
Proof.
  intros w1 w2 st t2 first W.
  assert (G : (exists roster, fst first = Returned roster)
              /\ get w2 (atTime t2 (snd first)) = (fst first, atTime t2 (snd first))).
  { unfold first. destruct W as [[d [D [L1 L2]]] | [M [[v V] L]]].
    - assert (H : cacheHit (facultyCache st) (clock st) = true)
        by (apply cacheHit_true; now exists d).
      rewrite (get_hit w1 st d H D). cbn [fst snd]. split; [now exists d|].
      apply get_hit; [|exact D].
      apply cacheHit_true. now exists d.
    - assert (H : cacheHit (facultyCache st) (clock st) = false).
      { unfold cacheHit. destruct M as [-> | M]; [reflexivity|].
        destruct (data (facultyCache st)); [|reflexivity]. now apply Z.ltb_ge. }
      unfold first in L. rewrite (get_repopulates w1 st v H V) in *. cbn [fst snd] in *.
      split; [eexists; reflexivity|].
      apply get_hit; [|reflexivity].
      apply cacheHit_true. eexists. split; [reflexivity|]. exact L. }
  destruct G as [R G]. rewrite G. repeat split. exact R.
Qed.

(** C5.  When the roster read fails, [getFacultyDataFromSheets] returns
    the synthetic roster derived from the first column of the review
    source: its names without repetitions, in the order of their first
    occurrence, each in a record with the placeholder department, subject
    and mobile.  When the review read fails as well it returns the empty
    roster.  In both cases it returns: nothing is raised to the caller. *)
Theorem roster_fallback :
  forall (w : Sheets) (st : State) (e : string),
    cacheHit (facultyCache st) (clock st) = false ->
    values_get w rosterRange = GetFails e ->
    exists st',
      get w st =
      (Returned
         match values_get w reviewRange with
         | GetOk v => Spec.syntheticRoster (orEmpty v)
         | GetFails _ => []
         end, st')
      /\ calls st' = (calls st ++ [CallGet rosterRange; CallGet reviewRange])%list
      /\ facultyCache st' = facultyCache st
      /\ (forall v, NoDup (map name (Spec.syntheticRoster v))
                    /\ forall n, In n (map name (Spec.syntheticRoster v))
                                 <-> In n (Spec.firstColumnNames v)).
Proof.
  intros w st e H G. rewrite (get_falls_back w st e H G), fallback_result.
  eexists. split; [|split; [|split]].
  - f_equal. destruct (values_get w reviewRange) as [|v]; [reflexivity|].
    rewrite newSet_firstOccurrences, firstColumn_names.
    unfold mapIndexed. now rewrite mapFrom_placeholder.
  - simpl. now rewrite <- app_assoc.
  - reflexivity.
  - intro v. rewrite syntheticRoster_names. split.
    + apply firstOccurrences_NoDup.
    + intro n. apply firstOccurrences_In.
Qed.

(** C8 (amended).  After a successful repopulation of the cache, every
    returned record has a name that is not empty after trimming, and the
    ids of the returned records are, in read order, the 1-based read
    positions of the rows that have such a name: they increase strictly,
    each is the position of the row the record was read from, and they
    form 1, 2, ..., n when every row read has a name. *)
Theorem repopulated_roster_ids :
  forall (w : Sheets) (st : State) (v : option (list Row)),
    cacheHit (facultyCache st) (clock st) = false ->
    values_get w rosterRange = GetOk v ->
    exists roster st',
      get w st = (Returned roster, st')
      /\ data (facultyCache st') = Some roster
      /\ Forall (fun f => trim (name f) <> "") roster
      /\ map id roster = Spec.positionsFrom 1 (orEmpty v)
      /\ StronglySorted lt (map id roster)
      /\ Forall (fun f => exists row, nth_error (orEmpty v) (id f - 1) = Some row
                                      /\ f = facultyOfRow row (id f - 1)) roster
      /\ (forallb Spec.rowHasName (orEmpty v) = true ->
          map id roster = seq 1 (List.length roster)).
Proof.
  intros w st v H G. rewrite (get_repopulates w st v H G).
  eexists _, _. split; [reflexivity|]. split; [reflexivity|].
  unfold mapIndexed. rewrite ids_positions.
  split; [apply filter_hasName|]. split; [reflexivity|].
  split; [apply positionsFrom_increasing|]. split.
  - apply Forall_forall. intros f F. apply filter_In in F as [F _].
    destruct (mapFrom_facultyOfRow_In _ _ _ F) as [row [N [E _]]].
    exists row. rewrite Nat.sub_0_r in N. now split.
  - intro A. rewrite (positionsFrom_all 1 _ A).
    rewrite <- (length_map id), ids_positions, (positionsFrom_all 1 _ A), length_seq.
    reflexivity.
Qed.


End Config.

(** C3, as stated, fails: the roster derived from the reviews is never
    cached.  Without the roster sheet, a second call one second after the
    first returned, within five minutes and with no write in between,
    returns the same roster but reads the two sheets again. *)
Lemma get_twice_after_fallback_reads_again :
  let first :=
    getFacultyDataFromSheets "Reviews" "Faculty" Scenario.sheetWithoutRoster
      Scenario.start in
  let second :=
    getFacultyDataFromSheets "Reviews" "Faculty" Scenario.sheetWithoutRoster
      (atTime (clock (snd first) + 1000) (snd first)) in
  (clock (snd first) + 1000 - clock Scenario.start < CACHE_DURATION)%Z
  /\ fst second = fst first
  /\ calls (snd second)
     = (calls (snd first) ++ [CallGet "Faculty!A2:D"; CallGet "Reviews!A2:A"])%list
  /\ calls (snd second) <> calls (snd first).
Proof.
  cbv zeta. split; [reflexivity|]. split; [reflexivity|].
  split; [reflexivity | discriminate].
Qed.

(** C8, as stated, fails: a row without a name between two named rows is
    dropped after the ids were given, so the ids of the repopulated roster
    are 1 and 3, not 1 and 2. *)
Lemma repopulated_ids_skip_dropped_rows :
  exists roster st',
    getFacultyDataFromSheets "Reviews" "Faculty" Scenario.sheetWithBlankRow
      Scenario.start = (Returned roster, st')
    /\ data (facultyCache st') = Some roster
    /\ map id roster = [1; 3]%nat
    /\ map id roster <> seq 1 (List.length roster).
Proof.
  eexists _, _. split; [|split; [|split]].
  - apply get_repopulates; reflexivity.
  - reflexivity.
  - reflexivity.
  - discriminate.
Qed.

End CacheFacts.

(** ** The write routes *)

Module RouteFacts.
Import JsString JsStringFacts JsNumber JsValue Gateway Server.

Section Config.
Variables REVIEWS_SHEET FACULTY_SHEET : string.
Variable toLocaleString : Z -> string.
Variable columns : string.

Local Abbreviation submit := (submitReviewRoute REVIEWS_SHEET toLocaleString columns).
Local Abbreviation addFaculty := (addFacultyRoute FACULTY_SHEET).

(** The first check of the submit route:
    [!facultyName || isNaN(teaching) || ... || isNaN(overall)]. *)
Lemma submit_rejects_missing w b st :
  negb (ToBoolean (ReviewBody.name b)) || isNaN (ReviewBody.teaching b)
  || isNaN (ReviewBody.evaluation b) || isNaN (ReviewBody.behaviour b)
  || isNaN (ReviewBody.internals b) || isNaN (ReviewBody.classAverage b)
  || isNaN (ReviewBody.overall b) = true ->
  submit w b st =
  (Returned {| status := 400;
               body := object
                 [("success", JBool false);
                  ("error", JString "Invalid input data");
                  ("message", JString "All fields are required and ratings must be numbers")] |},
   st).
Proof.
  intro H. unfold submitReviewRoute, tryCatch. rewrite H. reflexivity.
Qed.

(** The second check: [ratings.some(rating => rating < 1 || rating > 5)]. *)
Lemma submit_rejects_range w b st :
  negb (ToBoolean (ReviewBody.name b)) || isNaN (ReviewBody.teaching b)
  || isNaN (ReviewBody.evaluation b) || isNaN (ReviewBody.behaviour b)
  || isNaN (ReviewBody.internals b) || isNaN (ReviewBody.classAverage b)
  || isNaN (ReviewBody.overall b) = false ->
  existsb outOfRange
    [ReviewBody.teaching b; ReviewBody.evaluation b; ReviewBody.behaviour b;
     ReviewBody.internals b; ReviewBody.overall b] = true ->
  submit w b st =
  (Returned {| status := 400;
               body := object
                 [("success", JBool false);
                  ("error", JString "Invalid rating range");
                  ("message", JString "All ratings must be between 1 and 5")] |},
   st).
Proof.
  intros H1 H2. unfold submitReviewRoute, tryCatch. rewrite H1, H2. reflexivity.
Qed.

(** What a submission answered with status 200 went through. *)
Lemma submit_accepted w b st resp st' :
  submit w b st = (Returned resp, st') ->
  status resp = 200%nat ->
  exists s,
    let row :=
      [Str (trim s);
       Num (parseInt (ReviewBody.teaching b));
       Num (parseInt (ReviewBody.evaluation b));
       Num (parseInt (ReviewBody.behaviour b));
       Num (parseInt (ReviewBody.internals b));
       Num (parseFloat (ReviewBody.classAverage b));
       Num (parseInt (ReviewBody.overall b));
       Str (toLocaleString (clock st))] in
    ReviewBody.name b = Str s
    /\ negb (ToBoolean (ReviewBody.name b)) || isNaN (ReviewBody.teaching b)
       || isNaN (ReviewBody.evaluation b) || isNaN (ReviewBody.behaviour b)
       || isNaN (ReviewBody.internals b) || isNaN (ReviewBody.classAverage b)
       || isNaN (ReviewBody.overall b) = false
    /\ existsb outOfRange
         [ReviewBody.teaching b; ReviewBody.evaluation b; ReviewBody.behaviour b;
          ReviewBody.internals b; ReviewBody.overall b] = false
    /\ values_append w (REVIEWS_SHEET ++ columns) row = AppendOk
    /\ st' = {| facultyCache := {| data := data (facultyCache st); timestamp := 0 |};
                clock := (clock st + latency w (REVIEWS_SHEET ++ columns))%Z;
                calls := (calls st ++ [CallAppend (REVIEWS_SHEET ++ columns) row])%list |}.
Proof.
  unfold submitReviewRoute, tryCatch.
  match goal with
  | |- context [if ?c then send 400 (_ :: ("error", JString "Invalid input data") :: _) else _] =>
      destruct c eqn:C1
  end; [intros [= <- <-]; discriminate|].
  destruct (existsb outOfRange _) eqn:C2; [intros [= <- <-]; discriminate|].
  unfold bind, dateNow, sheetsAppend, resetTimestamp, bind, getCache, setCache, send, ret.
  destruct (ReviewBody.name b) as [| |nb|nx|s] eqn:N; simpl;
    try (intros [= <- <-]; discriminate).
  destruct (values_append w _ _) eqn:A; simpl; [intros [= <- <-]; discriminate|].
  intros [= <- <-] _. exists s. simpl. repeat split; assumption.
Qed.

(** What an added faculty member answered with status 200 went through. *)
Lemma addFaculty_accepted w b st resp st' :
  addFaculty w b st = (Returned resp, st') ->
  status resp = 200%nat ->
  exists row,
    values_append w (FACULTY_SHEET ++ "!A2:D") row = AppendOk
    /\ st' = {| facultyCache := {| data := data (facultyCache st); timestamp := 0 |};
                clock := (clock st + latency w (FACULTY_SHEET ++ "!A2:D"))%Z;
                calls := (calls st ++ [CallAppend (FACULTY_SHEET ++ "!A2:D") row])%list |}.
Proof.
  unfold addFacultyRoute, tryCatch.
  destruct (negb (ToBoolean (FacultyBody.name b)) || _) eqn:C1;
    [intros [= <- <-]; discriminate|].
  unfold bind, sheetsAppend, resetTimestamp, bind, getCache, setCache, send, ret.
  destruct (FacultyBody.name b) as [| |nb|nx|n]; simpl;
    try (intros [= <- <-]; discriminate).
  destruct (FacultyBody.department b) as [| |db|dx|d]; simpl;
    try (intros [= <- <-]; discriminate).
  destruct (FacultyBody.subject b) as [| |sb|sx|s]; simpl;
    try (intros [= <- <-]; discriminate);
  (destruct (FacultyBody.mobile b) as [| |mb|mx|m]; simpl;
    try (intros [= <- <-]; discriminate);
   (destruct (values_append w _ _) eqn:A; simpl; [intros [= <- <-]; discriminate|];
    intros [= <- <-] _; eexists; split; [exact A | reflexivity])).
Qed.

Lemma outsideScale_outOfRange rating :
  Spec.outsideScale rating <-> outOfRange rating = true.
Proof.
  unfold Spec.outsideScale, outOfRange, lessThan, greaterThan.
  now rewrite orb_true_iff.
Qed.

(** C4.  After a successful write, submit review or add faculty, in
    either revision, the cache holds the data it held and the timestamp 0;
    the next [getFacultyDataFromSheets], at whatever time of a clock that
    shows at least five minutes past the epoch, starts by reading the
    roster sheet. *)
Theorem write_invalidates_cache :
  forall (w w' : Sheets) (rb : ReviewBody.t) (fb : FacultyBody.t)
         (st st' : State) (resp : Response) (now : Z),
    submit w rb st = (Returned resp, st')
    \/ addFaculty w fb st = (Returned resp, st') ->
    status resp = 200%nat ->
    (CACHE_DURATION <= now)%Z ->
    timestamp (facultyCache st') = 0%Z
    /\ data (facultyCache st') = data (facultyCache st)
    /\ exists r st'' rest,
        getFacultyDataFromSheets REVIEWS_SHEET FACULTY_SHEET w' (atTime now st')
        = (r, st'')
        /\ calls st'' = (calls st' ++ CallGet (FACULTY_SHEET ++ "!A2:D") :: rest)%list.
Proof.
  intros w w' rb fb st st' resp now W S N.
  assert (C : facultyCache st' = {| data := data (facultyCache st); timestamp := 0 |}).
  { destruct W as [W | W].
    - destruct (submit_accepted _ _ _ _ _ W S) as [s [_ [_ [_ [_ ->]]]]]. reflexivity.
    - destruct (addFaculty_accepted _ _ _ _ _ W S) as [row [_ ->]]. reflexivity. }
  rewrite C. simpl. split; [reflexivity|]. split; [reflexivity|].
  assert (M : cacheHit (facultyCache (atTime now st')) (clock (atTime now st')) = false).
  { simpl. rewrite C. unfold cacheHit. simpl.
    destruct (data (facultyCache st)); [|reflexivity].
    apply Z.ltb_ge. lia. }
  destruct (values_get w' (FACULTY_SHEET ++ "!A2:D")) as [e|v] eqn:G.
  - rewrite (CacheFacts.get_falls_back REVIEWS_SHEET FACULTY_SHEET w' _ e M G).
    rewrite CacheFacts.fallback_result.
    eexists _, _, _. split; [reflexivity|]. simpl. now rewrite <- app_assoc.
  - rewrite (CacheFacts.get_repopulates REVIEWS_SHEET FACULTY_SHEET w' _ v M G).
    eexists _, _, _. split; [reflexivity|]. reflexivity.
Qed.

(** C6.  A submit-review request one of whose five ratings is outside
    [[1, 5]], teaching = 6 for one, is answered with status 400 and a
    validation error; the state is left as it was: no row is appended, no
    remote call is made, and the cache and its timestamp are untouched. *)
Theorem submit_out_of_range_rejected :
  forall (w : Sheets) (b : ReviewBody.t) (st : State) (rating : value),
    In rating [ReviewBody.teaching b; ReviewBody.evaluation b;
               ReviewBody.behaviour b; ReviewBody.internals b;
               ReviewBody.overall b] ->
    Spec.outsideScale rating ->
    exists resp,
      submit w b st = (Returned resp, st)
      /\ status resp = 400%nat
      /\ member "success" (body resp) = Some (JBool false)
      /\ (member "error" (body resp) = Some (JString "Invalid rating range")
          \/ member "error" (body resp) = Some (JString "Invalid input data"))
      /\ calls (snd (submit w b st)) = calls st
      /\ facultyCache (snd (submit w b st)) = facultyCache st.
Proof.
  intros w b st rating I O.
  destruct (negb (ToBoolean (ReviewBody.name b)) || isNaN (ReviewBody.teaching b)
            || isNaN (ReviewBody.evaluation b) || isNaN (ReviewBody.behaviour b)
            || isNaN (ReviewBody.internals b) || isNaN (ReviewBody.classAverage b)
            || isNaN (ReviewBody.overall b)) eqn:C1.
  - rewrite (submit_rejects_missing w b st C1). eexists. repeat split. now right.
  - assert (C2 : existsb outOfRange
                   [ReviewBody.teaching b; ReviewBody.evaluation b;
                    ReviewBody.behaviour b; ReviewBody.internals b;
                    ReviewBody.overall b] = true).
    { apply existsb_exists. exists rating. split; [exact I|].
      now apply outsideScale_outOfRange. }
    rewrite (submit_rejects_range w b st C1 C2). eexists. repeat split. now left.
Qed.

End Config.
End RouteFacts.

(** ** The aggregation engine *)

Module AverageFacts.
Import JsString JsStringFacts JsNumber JsNumberFacts JsValue Gateway Server.

Lemma getFacultyAverages_result rev RS w facultyName st :
  Either.getFacultyAverages rev RS w facultyName st =
  (Returned
     match values_get w (RS ++ "!A2:I") with
     | GetOk v => summarize (filter (Either.selects rev facultyName) (orEmpty v))
     | GetFails _ => None
     end,
   remote w (RS ++ "!A2:I") (CallGet (RS ++ "!A2:I")) st).
Proof.
  destruct rev; simpl;
    unfold V1.getFacultyAverages, V2.getFacultyAverages, tryCatch, bind, sheetsGet, ret;
    now destruct (values_get w (RS ++ "!A2:I")).
Qed.

Lemma summarize_none rows : summarize rows = None <-> rows = [].
Proof. destruct rows; simpl; split; congruence. Qed.

(** C7, as stated, fails: for a name without a review the route
    answers with status 200 and null averages, but the envelope says
    [success: false]. *)
Lemma averages_of_unknown_name_flag :
  exists resp st',
    Either.apiFacultyAverages Either.Later "Reviews" Scenario.reviewSheet
      (Str "Dr. Nobody") Scenario.start = (Returned resp, st')
    /\ status resp = 200%nat
    /\ member "averages" (body resp) = Some JNull
    /\ member "success" (body resp) = Some (JBool false)
    /\ member "success" (body resp) <> Some (JBool true).
Proof.
  eexists _, _. split; [reflexivity|]. repeat split. discriminate.
Qed.

(** C7 (amended).  When averages are asked for a name that no review row
    matches, [getFacultyAverages] returns [null] without raising, in
    either revision, and the faculty-averages route answers with status
    200, not 404, and an envelope that holds [averages: null] and no
    [error], with the [success] flag false. *)
Theorem averages_of_unmatched_name :
  forall (rev : Either.Revision) (RS : string) (w : Sheets) (faculty : value)
         (facultyName : string) (st : State) (v : option (list Row)),
    decodeURIComponent faculty = Some facultyName ->
    values_get w (RS ++ "!A2:I") = GetOk v ->
    filter (Either.selects rev facultyName) (orEmpty v) = [] ->
    fst (Either.getFacultyAverages rev RS w facultyName st) = Returned None
    /\ exists resp st',
        Either.apiFacultyAverages rev RS w faculty st = (Returned resp, st')
        /\ status resp = 200%nat
        /\ member "success" (body resp) = Some (JBool false)
        /\ member "averages" (body resp) = Some JNull
        /\ member "error" (body resp) = None.
Proof.
  intros rev RS w faculty facultyName st v D G F.
  assert (R : Either.getFacultyAverages rev RS w facultyName st
              = (Returned None, remote w (RS ++ "!A2:I") (CallGet (RS ++ "!A2:I")) st)).
  { rewrite getFacultyAverages_result, G, F. reflexivity. }
  split; [now rewrite R|].
  assert (E : Either.apiFacultyAverages rev
              = fun RS => facultyAveragesRoute (Either.getFacultyAverages rev RS))
    by now destruct rev.
  rewrite E. unfold facultyAveragesRoute, tryCatch, bind. rewrite D. simpl.
  rewrite R. eexists _, _. split; [reflexivity|]. repeat split.
Qed.

Lemma summarize_some rows a :
  summarize rows = Some a ->
  rows <> []
  /\ [teaching a; evaluation a; behaviour a; internals a; classAverage a; overall a]
     = map (calculateAverage rows) [1; 2; 3; 4; 5; 6]%nat
  /\ count a = List.length rows.
Proof.
  destruct rows as [|row rows]; simpl; [discriminate|].
  intros [= <-]. simpl. repeat split. discriminate.
Qed.

(** C1, as stated, fails: in the evaluation column of Dr. Rao's reviews
    no entry parses as a finite number, yet the average is the string
    "Infinity", not 0; in the behaviour column none does either, and the
    average is the string "NaN". *)
Lemma average_of_entries_not_finite :
  exists a st',
    Either.getFacultyAverages Either.Later "Reviews" Scenario.reviewSheet
      "Dr. Rao" Scenario.start = (Returned (Some a), st')
    /\ filter (Spec.finiteEntry 2)
         (filter (Either.selects Either.Later "Dr. Rao") Scenario.reviews) = []
    /\ evaluation a = Str "Infinity"
    /\ evaluation a <> Num zero
    /\ filter (Spec.finiteEntry 3)
         (filter (Either.selects Either.Later "Dr. Rao") Scenario.reviews) = []
    /\ behaviour a = Str "NaN".
Proof.
  eexists _, _. split; [vm_compute; reflexivity|].
  split; [vm_compute; reflexivity|].
  split; [vm_compute; reflexivity|].
  split; [discriminate|].
  split; vm_compute; reflexivity.
Qed.

Lemma numericEntry_validEntry index row :
  validEntry index row = true <-> Spec.numericEntry index row <> None.
Proof.
  unfold validEntry, Spec.numericEntry, isNaN. cbn [ToNumber].
  destruct (nth_error row index) as [c|]; [|split; congruence].
  destruct (truthy c && negb (numIsNaN (StringToNumber c))); split; congruence.
Qed.

Lemma numericEntries_nil index rows :
  Spec.numericEntries index rows = [] <-> filter (validEntry index) rows = [].
Proof.
  induction rows as [|row rows IH]; simpl; [tauto|].
  destruct (validEntry index row) eqn:V.
  - apply numericEntry_validEntry in V.
    destruct (Spec.numericEntry index row); [split; discriminate | congruence].
  - destruct (Spec.numericEntry index row) eqn:N; [|exact IH].
    assert (X : validEntry index row = true)
      by (apply numericEntry_validEntry; congruence).
    congruence.
Qed.

(** Where every counted cell is a decimal numeral, the numbers the code
    sums are the numeric entries. *)
Lemma numericEntries_entry index rows :
  (forall row c,
      In row rows -> nth_error row index = Some c ->
      Spec.numericEntry index row <> None -> Spec.decimalCell c = true) ->
  Spec.numericEntries index rows = map (entry index) (filter (validEntry index) rows).
Proof.
  induction rows as [|row rows IH]; intro D; simpl; [reflexivity|].
  assert (IH' : Spec.numericEntries index rows
                = map (entry index) (filter (validEntry index) rows))
    by (apply IH; intros r c I; apply D; now right).
  destruct (validEntry index row) eqn:V.
  - pose proof (proj1 (numericEntry_validEntry index row) V) as N.
    destruct (nth_error row index) as [c|] eqn:E;
      [|unfold Spec.numericEntry in N; rewrite E in N; congruence].
    pose proof (D row c (or_introl eq_refl) E N) as C.
    unfold Spec.numericEntry in N |- *. unfold entry. rewrite E in N |- *.
    destruct (truthy c && negb (numIsNaN (StringToNumber c))) eqn:T; [|congruence].
    simpl. rewrite IH'. f_equal.
    apply andb_true_iff in T. destruct T as [_ T]. apply negb_true_iff in T.
    unfold entry. rewrite E. symmetry.
    change (parseFloat (Str c)) with (parseFloatString c).
    now apply NumeralFacts.parseFloat_decimal.
  - destruct (Spec.numericEntry index row) eqn:N; [|exact IH'].
    assert (X : validEntry index row = true)
      by (apply numericEntry_validEntry; congruence).
    congruence.
Qed.

Lemma fold_left_entries index rows acc :
  fold_left (fun sum row => add sum (entry index row)) rows acc
  = fold_left add (map (entry index) rows) acc.
Proof.
  revert acc. induction rows as [|row rows IH]; intro acc; simpl; [reflexivity|].
  apply IH.
Qed.

(** C1 (amended).  For a faculty name with at least one matching review
    row, in either revision, each of the six category averages is computed
    over the numeric entries of that category in the matching rows: the
    cells that are present, not empty and not NaN as numbers, so that
    "Infinity" counts.  When there is no such entry the average is the
    number 0, never NaN or null.  Otherwise, provided every counted cell is
    a decimal numeral or an infinity (not blank and not a [0x], [0o] or
    [0b] literal), the average is the string that [toFixed(1)] gives for
    the binary64 arithmetic mean of the entries, their sum from left to
    right divided by their number: "0.0" when the mean is zero, and, when
    the mean is finite and below 10^21 in magnitude, its sign followed by
    the decimal with one fractional digit nearest to the magnitude of the
    mean, the larger one on a tie. *)
Theorem category_averages :
  forall (rev : Either.Revision) (RS : string) (w : Sheets)
         (facultyName : string) (st : State) (a : FacultyAverages),
    fst (Either.getFacultyAverages rev RS w facultyName st) = Returned (Some a) ->
    exists v,
      values_get w (RS ++ "!A2:I") = GetOk v
      /\ let facultyReviews := filter (Either.selects rev facultyName) (orEmpty v) in
         facultyReviews <> []
         /\ forall (index : nat) (average : value),
              In (index, average)
                 [(1%nat, teaching a); (2%nat, evaluation a); (3%nat, behaviour a);
                  (4%nat, internals a); (5%nat, classAverage a); (6%nat, overall a)] ->
              let entries := Spec.numericEntries index facultyReviews in
              (entries = [] -> average = Num zero /\ isNaN average = false)
              /\ (entries <> [] ->
                  (forall row c,
                      In row facultyReviews -> nth_error row index = Some c ->
                      Spec.numericEntry index row <> None ->
                      Spec.decimalCell c = true) ->
                  average = Str (toFixed (Spec.mean entries) 1)
                  /\ (forall s, Spec.mean entries = S754_zero s -> average = Str "0.0")
                  /\ forall s m e,
                       Spec.mean entries = S754_finite s m e ->
                       (Qabs (toQ (Spec.mean entries)) < inject_Z (10 ^ 21))%Q ->
                       exists n : Z,
                         (0 <= n)%Z
                         /\ average = Str ((if s then "-" else "") ++ fixedPoint n 1)
                         /\ Spec.tenthsOf (Qabs (toQ (Spec.mean entries))) n).
Proof.
  intros rev RS w facultyName st a H.
  rewrite getFacultyAverages_result in H. simpl in H.
  destruct (values_get w (RS ++ "!A2:I")) as [e|v]; [discriminate|].
  injection H as H. exists v. split; [reflexivity|].
  destruct (summarize_some _ _ H) as [N [C _]].
  set (facultyReviews := filter (Either.selects rev facultyName) (orEmpty v)) in *.
  cbv zeta. split; [exact N|].
  intros index average I.
  assert (A : average = calculateAverage facultyReviews index).
  { injection C as C1 C2 C3 C4 C5 C6. simpl in I.
    destruct I as [I | [I | [I | [I | [I | [I | []]]]]]];
      injection I as <- <-; assumption. }
  subst average. split.
  - intro E. apply numericEntries_nil in E. unfold calculateAverage. rewrite E.
    now split.
  - intros E D.
    assert (V : filter (validEntry index) facultyReviews <> [])
      by (intro X; apply E, numericEntries_nil, X).
    assert (Q : calculateAverage facultyReviews index
                = Str (toFixed (Spec.mean (Spec.numericEntries index facultyReviews)) 1)).
    { unfold calculateAverage, Spec.mean.
      rewrite (numericEntries_entry index facultyReviews D), length_map,
        fold_left_entries.
      destruct (filter (validEntry index) facultyReviews); [congruence | reflexivity]. }
    split; [exact Q|]. split.
    + intros s Z. rewrite Q, Z. reflexivity.
    + intros s m e F B. rewrite F in B.
      destruct (toFixed_tenthsOf s m e B) as [n [P [T R]]].
      exists n. split; [exact P|]. split; [now rewrite Q, F, T|]. now rewrite F.
Qed.

End AverageFacts.

(** ** The row a review is stored as *)

Module SubmitFacts.
Import JsString JsNumber JsValue Gateway Server.






End SubmitFacts.

(** ** The theorems at concrete inputs *)

Module Witnesses.
Import JsString JsNumber JsValue Gateway Server.

(** The cache filled at start answers a call made 299 seconds after the
    roster read returned, even with the spreadsheet unreachable by then. *)
Lemma get_twice_within_window_witness :
  let first :=
    getFacultyDataFromSheets "Reviews" "Faculty" Scenario.rosterSheet Scenario.start in
  let t2 := (clock (snd first) + 299000)%Z in
  (data (facultyCache Scenario.start) = None
   /\ (exists v, values_get Scenario.rosterSheet ("Faculty" ++ "!A2:D") = GetOk v)
   /\ (t2 - clock (snd first) < CACHE_DURATION)%Z)
  /\ getFacultyDataFromSheets "Reviews" "Faculty" Scenario.sheetDown
       (atTime t2 (snd first))
     = (fst first, atTime t2 (snd first))
  /\ calls (snd (getFacultyDataFromSheets "Reviews" "Faculty" Scenario.sheetDown
                   (atTime t2 (snd first))))
     = calls (snd first).
Proof.
  cbv zeta.
  assert (V : exists v, values_get Scenario.rosterSheet ("Faculty" ++ "!A2:D") = GetOk v)
    by (eexists; reflexivity).
  assert (L : (clock (snd (getFacultyDataFromSheets "Reviews" "Faculty"
                             Scenario.rosterSheet Scenario.start)) + 299000
               - clock (snd (getFacultyDataFromSheets "Reviews" "Faculty"
                               Scenario.rosterSheet Scenario.start))
               < CACHE_DURATION)%Z)
    by (vm_compute; reflexivity).
  split; [split; [reflexivity | split; [exact V | exact L]]|].
  destruct (CacheFacts.get_twice_within_window "Reviews" "Faculty"
              Scenario.rosterSheet Scenario.sheetDown Scenario.start _
              (or_intror (conj (or_introl eq_refl) (conj V L))))
    as [_ [G [C _]]].
  split; [exact G | exact C].
Defined.

(** A review submitted on a warm cache resets its timestamp, keeps its
    data, and the next read of the roster goes to the spreadsheet. *)
Lemma write_invalidates_cache_witness :
  exists resp st',
    submitReviewRoute "Reviews" Scenario.stamp "!A2:H" Scenario.reviewSheet
      Scenario.review Scenario.warm = (Returned resp, st')
    /\ status resp = 200%nat
    /\ (CACHE_DURATION <= clock st')%Z
    /\ timestamp (facultyCache st') = 0%Z
    /\ data (facultyCache st') = data (facultyCache Scenario.warm)
    /\ exists r st'' rest,
        getFacultyDataFromSheets "Reviews" "Faculty" Scenario.rosterSheet
          (atTime (clock st') st') = (r, st'')
        /\ calls st'' = (calls st' ++ CallGet ("Faculty" ++ "!A2:D") :: rest)%list.
Proof.
  eexists _, _. split; [vm_compute; reflexivity|].
  split; [reflexivity|]. split; [vm_compute; discriminate|].
  refine (RouteFacts.write_invalidates_cache "Reviews" "Faculty" Scenario.stamp "!A2:H"
            Scenario.reviewSheet Scenario.rosterSheet Scenario.review
            Scenario.newFaculty Scenario.warm _ _ _ _ _ _).
  - left. vm_compute; reflexivity.
  - reflexivity.
  - vm_compute; discriminate.
Defined.

(** The scenario of the specification: the roster sheet is missing and the
    reviews name Dr. Rao twice and Dr. Singh once. *)
Lemma roster_fallback_witness :
  cacheHit (facultyCache Scenario.start) (clock Scenario.start) = false
  /\ values_get Scenario.sheetWithoutRoster ("Faculty" ++ "!A2:D")
     = GetFails "Unable to parse range: Faculty!A2:D"
  /\ exists st',
      getFacultyDataFromSheets "Reviews" "Faculty" Scenario.sheetWithoutRoster
        Scenario.start
      = (Returned [placeholder "Dr. Rao" 0; placeholder "Dr. Singh" 1], st').
Proof.
  split; [reflexivity|]. split; [reflexivity|].
  destruct (CacheFacts.roster_fallback "Reviews" "Faculty" Scenario.sheetWithoutRoster
              Scenario.start "Unable to parse range: Faculty!A2:D")
    as [st' [H _]]; [reflexivity | reflexivity |].
  exists st'. exact H.
Defined.

(** teaching = 6. *)
Lemma submit_out_of_range_rejected_witness :
  In (Num Scenario.six)
     [ReviewBody.teaching Scenario.reviewTeachingSix;
      ReviewBody.evaluation Scenario.reviewTeachingSix;
      ReviewBody.behaviour Scenario.reviewTeachingSix;
      ReviewBody.internals Scenario.reviewTeachingSix;
      ReviewBody.overall Scenario.reviewTeachingSix]
  /\ Spec.outsideScale (Num Scenario.six)
  /\ exists resp,
      submitReviewRoute "Reviews" Scenario.stamp "!A2:H" Scenario.reviewSheet
        Scenario.reviewTeachingSix Scenario.warm = (Returned resp, Scenario.warm)
      /\ status resp = 400%nat
      /\ member "success" (body resp) = Some (JBool false).
Proof.
  split; [simpl; now left|]. split; [right; vm_compute; reflexivity|].
  destruct (RouteFacts.submit_out_of_range_rejected "Reviews" Scenario.stamp "!A2:H"
              Scenario.reviewSheet Scenario.reviewTeachingSix Scenario.warm
              (Num Scenario.six))
    as [resp [H [S [F _]]]]; [simpl; now left | right; vm_compute; reflexivity |].
  exists resp. repeat split; assumption.
Defined.

(** Averages asked for somebody without a review. *)
Lemma averages_of_unmatched_name_witness :
  decodeURIComponent (Str "Dr.%20Nobody") = Some "Dr. Nobody"
  /\ values_get Scenario.reviewSheet ("Reviews" ++ "!A2:I") = GetOk (Some Scenario.reviews)
  /\ filter (Either.selects Either.First "Dr. Nobody") (orEmpty (Some Scenario.reviews)) = []
  /\ fst (Either.getFacultyAverages Either.First "Reviews" Scenario.reviewSheet
            "Dr. Nobody" Scenario.start) = Returned None
  /\ exists resp st',
      Either.apiFacultyAverages Either.First "Reviews" Scenario.reviewSheet
        (Str "Dr.%20Nobody") Scenario.start = (Returned resp, st')
      /\ status resp = 200%nat
      /\ member "success" (body resp) = Some (JBool false)
      /\ member "averages" (body resp) = Some JNull
      /\ member "error" (body resp) = None.
Proof.
  split; [reflexivity|]. split; [reflexivity|]. split; [reflexivity|].
  refine (AverageFacts.averages_of_unmatched_name Either.First "Reviews"
            Scenario.reviewSheet (Str "Dr.%20Nobody") "Dr. Nobody" Scenario.start
            (Some Scenario.reviews) _ _ _); reflexivity.
Defined.

(** A roster whose every row has a name gets the ids 1, 2, 3. *)
Lemma repopulated_roster_ids_witness :
  cacheHit (facultyCache Scenario.start) (clock Scenario.start) = false
  /\ (exists v, values_get Scenario.rosterSheet ("Faculty" ++ "!A2:D") = GetOk v
                /\ forallb Spec.rowHasName (orEmpty v) = true)
  /\ exists roster st',
      getFacultyDataFromSheets "Reviews" "Faculty" Scenario.rosterSheet Scenario.start
      = (Returned roster, st')
      /\ Forall (fun f => trim (name f) <> "") roster
      /\ map id roster = seq 1 (List.length roster).
Proof.
  split; [reflexivity|]. split; [eexists; split; reflexivity|].
  destruct (CacheFacts.repopulated_roster_ids "Reviews" "Faculty" Scenario.rosterSheet
              Scenario.start _ eq_refl eq_refl)
    as [roster [st' [H [_ [N [_ [_ [_ A]]]]]]]].
  exists roster, st'. split; [exact H|]. split; [exact N|].
  apply A. reflexivity.
Defined.


(** Dr. Rao's averages: the teaching column holds 5 and 4, whose mean
    4.5 is written with 45 tenths. *)
Lemma category_averages_witness :
  fst (Either.getFacultyAverages Either.Later "Reviews" Scenario.reviewSheet
         "Dr. Rao" Scenario.start) = Returned (Some Scenario.raoAverages)
  /\ Spec.numericEntries 1 Scenario.raoReviews = [ofZ 5; ofZ 4]
  /\ Spec.mean [ofZ 5; ofZ 4] = div (ofZ 9) (ofZ 2)
  /\ teaching Scenario.raoAverages = Str (toFixed (div (ofZ 9) (ofZ 2)) 1)
  /\ exists n : Z,
      teaching Scenario.raoAverages = Str (fixedPoint n 1)
      /\ Spec.tenthsOf (Qabs (toQ (div (ofZ 9) (ofZ 2)))) n.
Proof.
  split; [vm_compute; reflexivity|].
  split; [vm_compute; reflexivity|].
  split; [vm_compute; reflexivity|].
  destruct (AverageFacts.category_averages Either.Later "Reviews" Scenario.reviewSheet
              "Dr. Rao" Scenario.start Scenario.raoAverages
              ltac:(vm_compute; reflexivity))
    as [v [G [_ P]]].
  injection G as <-.
  destruct (P 1%nat (teaching Scenario.raoAverages) (or_introl eq_refl)) as [_ N1].
  change (filter (Either.selects Either.Later "Dr. Rao") (orEmpty (Some Scenario.reviews)))
    with Scenario.raoReviews in N1.
  change (Spec.numericEntries 1 Scenario.raoReviews) with [ofZ 5; ofZ 4] in N1.
  change (Spec.mean [ofZ 5; ofZ 4])
    with (S754_finite false 5066549580791808 (-50)) in N1.
  destruct (N1 ltac:(discriminate)) as [E [_ R]].
  - intros row c [<- | [<- | []]] X _; injection X as <-; reflexivity.
  - split; [exact E|].
    destruct (R false 5066549580791808%positive (-50)%Z eq_refl
                ltac:(vm_compute; reflexivity))
      as [n [_ [F B]]].
    exists n. split; [exact F | exact B].
Defined.

End Witnesses.

(** * Further properties of the code *)

(** ** Substrings, trimming and case *)

Module SubstringFacts.
Import JsString JsStringFacts.

Lemma isSubstring_refl s : isSubstring s s.
Proof. exists "", "". simpl. induction s as [|c s IH]; simpl; congruence. Qed.

Lemma trimStart_suffix s : exists pre, s = pre ++ trimStart s.
Proof.
  induction s as [|c s [pre IH]]; simpl.
  - now exists "".
  - destruct (isWhite c).
    + exists (String c pre). simpl. now rewrite <- IH.
    + now exists "".
Qed.

Lemma trimEnd_prefix s : exists post, s = trimEnd s ++ post.
Proof.
  induction s as [|c s [post IH]]; simpl.
  - now exists "".
  - destruct (trimEnd s) as [|d t] eqn:E.
    + destruct (isWhite c).
      * now exists (String c s).
      * exists s. reflexivity.
    + exists post. simpl. now rewrite IH at 1.
Qed.

(** What [trim] returns occurs in what it was given. *)
Lemma trim_isSubstring s : isSubstring (trim s) s.
Proof.
  unfold trim. destruct (trimStart_suffix s) as [pre P].
  destruct (trimEnd_prefix (trimStart s)) as [post Q].
  exists pre, post. now rewrite <- Q.
Qed.

Lemma includes_empty s : includes s "" = true.
Proof. apply includes_spec. exists "", s. reflexivity. Qed.

Lemma filter_length_le {A} (p q : A -> bool) l :
  (forall x, p x = true -> q x = true) ->
  (List.length (filter p l) <= List.length (filter q l))%nat.
Proof.
  intro H. induction l as [|x l IH]; simpl; [lia|].
  destruct (p x) eqn:P.
  - rewrite (H x P). simpl. lia.
  - destruct (q x); simpl; lia.
Qed.

Lemma filter_all {A} (p : A -> bool) l :
  (forall x, In x l -> p x = true) -> filter p l = l.
Proof.
  induction l as [|x l IH]; intro H; simpl; [reflexivity|].
  rewrite (H x (or_introl eq_refl)), IH; [reflexivity|].
  intros y Y. apply H. now right.
Qed.

End SubstringFacts.

(** ** Which rows and records a query reaches *)

Module MatchingFacts.
Import JsString JsStringFacts SubstringFacts JsNumber JsValue Gateway Server.

Lemma later_implies_first q row :
  trim q = q ->
  Either.selects Either.Later q row = true ->
  Either.selects Either.First q row = true.
Proof.
  intros T H. simpl in *.
  apply SearchFacts.V2_matchesName_spec in H as [n [S E]].
  apply SearchFacts.V1_matchesName_spec. exists n. split; [exact S|].
  unfold Spec.exactMatch in E. unfold Spec.substringMatch.
  rewrite T in E. rewrite <- E, <- toLowerCase_trim.
  apply trim_isSubstring.
Qed.

(** X1.  For a query without white space around it, every review row the later
    revision of [getFacultyAverages] selects (equality of names) is also
    selected by the first revision (containment), so the later revision
    never counts more reviews than the first. *)
Theorem later_selection_within_first :
  forall (rows : list Row) (q : string),
    trim q = q ->
    (forall row,
        In row (filter (Either.selects Either.Later q) rows) ->
        In row (filter (Either.selects Either.First q) rows))
    /\ (List.length (filter (Either.selects Either.Later q) rows)
        <= List.length (filter (Either.selects Either.First q) rows))%nat.
Proof.
  intros rows q T. split.
  - intros row H. apply filter_In in H as [I H]. apply filter_In.
    split; [exact I | now apply later_implies_first].
  - apply filter_length_le. intros row. now apply later_implies_first.
Qed.

Lemma keepsTerm_own rev (own : Faculty -> string) f :
  own = name \/ own = department \/ own = subject ->
  keepsTerm (match rev with
             | Either.First => toLowerCase (own f)
             | Either.Later => trim (toLowerCase (own f))
             end) f = true.
Proof.
  intro O. apply SearchFacts.keepsTerm_spec.
  assert (S : isSubstring
                (match rev with
                 | Either.First => toLowerCase (own f)
                 | Either.Later => trim (toLowerCase (own f))
                 end) (toLowerCase (own f))).
  { destruct rev; [apply isSubstring_refl | apply trim_isSubstring]. }
  destruct O as [-> | [-> | ->]]; tauto.
Qed.

(** X3.  In both revisions [searchFaculty] finds a record of the roster by its
    own name, by its own department and by its own subject, as they are
    stored. *)
Theorem search_finds_own_fields :
  forall (rev : Either.Revision) (R : list Faculty) (f : Faculty),
    In f R ->
    In f (Either.searchFaculty rev R (name f))
    /\ In f (Either.searchFaculty rev R (department f))
    /\ In f (Either.searchFaculty rev R (subject f)).
Proof.
  intros rev R f I.
  destruct rev; simpl; unfold V1.searchFaculty, V2.searchFaculty;
    repeat split; apply filter_In; (split; [exact I|]).
  - apply (keepsTerm_own Either.First name). tauto.
  - apply (keepsTerm_own Either.First department). tauto.
  - apply (keepsTerm_own Either.First subject). tauto.
  - apply (keepsTerm_own Either.Later name). tauto.
  - apply (keepsTerm_own Either.Later department). tauto.
  - apply (keepsTerm_own Either.Later subject). tauto.
Qed.

Lemma keepsTerm_empty f : keepsTerm "" f = true.
Proof. unfold keepsTerm. now rewrite includes_empty. Qed.

(** X4.  [searchFaculty] with the empty term returns the roster as it is, in
    both revisions; in the later revision so does every term of white space
    only. *)
Theorem search_empty_term :
  forall (rev : Either.Revision) (R : list Faculty),
    Either.searchFaculty rev R "" = R
    /\ forall t, trim t = "" -> V2.searchFaculty R t = R.
Proof.
  intros rev R. split.
  - destruct rev; simpl; unfold V1.searchFaculty, V2.searchFaculty; simpl;
      apply filter_all; intros; apply keepsTerm_empty.
  - intros t T. unfold V2.searchFaculty. rewrite toLowerCase_trim, T. simpl.
    apply filter_all; intros; apply keepsTerm_empty.
Qed.

Lemma V1_matchesName_empty row :
  V1.matchesName "" row = truthy (cellOr row 0).
Proof.
  unfold V1.matchesName, cellOr. destruct (nth_error row 0) as [n|]; [|reflexivity].
  simpl. now rewrite includes_empty, andb_true_r.
Qed.

(** X5.  Asked for the empty name, the first revision of [getFacultyAverages]
    averages over every review row whose name cell is not empty; the later
    revision selects no row whose name is not blank. *)
Theorem averages_for_empty_name :
  forall (RS : string) (w : Sheets) (st : State) (v : option (list Row)),
    values_get w (RS ++ "!A2:I") = GetOk v ->
    fst (Either.getFacultyAverages Either.First RS w "" st)
    = Returned (summarize (filter (fun row => truthy (cellOr row 0)) (orEmpty v)))
    /\ forall row n,
        Spec.storedName row = Some n -> trim n <> "" ->
        Either.selects Either.Later "" row = false.
Proof.
  intros RS w st v G. split.
  - rewrite AverageFacts.getFacultyAverages_result, G. simpl.
    do 2 f_equal. apply filter_ext. intro row. apply V1_matchesName_empty.
  - intros row n S T. destruct (Either.selects Either.Later "" row) eqn:E; [|reflexivity].
    simpl in E. apply (SearchFacts.V2_matchesName_spec "") in E as [n' [S' X]].
    rewrite S in S'. injection S' as <-. unfold Spec.exactMatch in X. simpl in X.
    destruct (trim n); [congruence | discriminate].
Qed.

End MatchingFacts.

(** ** What a read of the roster does to the state *)

Module RosterReadFacts.
Import JsString JsStringFacts JsNumber JsValue Gateway Server.

Lemma cacheHit_later c t t' :
  cacheHit c t = false -> (t <= t')%Z -> cacheHit c t' = false.
Proof.
  unfold cacheHit. destruct (data c); [|reflexivity].
  rewrite !Z.ltb_ge. lia.
Qed.

Lemma cacheHit_expired c t :
  timestamp c = 0%Z -> (CACHE_DURATION <= t)%Z -> cacheHit c t = false.
Proof.
  intros T H. unfold cacheHit. destruct (data c); [|reflexivity].
  rewrite T. apply Z.ltb_ge. lia.
Qed.

(** What a call that misses the cache does, by the answer of the roster
    sheet. *)
Lemma get_miss RS FS w st :
  cacheHit (facultyCache st) (clock st) = false ->
  exists roster st' rest,
    getFacultyDataFromSheets RS FS w st = (Returned roster, st')
    /\ calls st' = (calls st ++ CallGet (FS ++ "!A2:D") :: rest)%list
    /\ forallb isRead rest = true
    /\ (List.length rest <= 1)%nat
    /\ match values_get w (FS ++ "!A2:D") with
       | GetOk v =>
           roster = filter hasName (mapIndexed facultyOfRow (orEmpty v))
           /\ facultyCache st' = {| data := Some roster; timestamp := clock st' |}
           /\ rest = []
       | GetFails _ =>
           facultyCache st' = facultyCache st
           /\ rest = [CallGet (RS ++ "!A2:A")]
       end.
Proof.
  intro H. destruct (values_get w (FS ++ "!A2:D")) as [e|v] eqn:G.
  - rewrite (CacheFacts.get_falls_back RS FS w st e H G), CacheFacts.fallback_result.
    eexists _, _, [CallGet (RS ++ "!A2:A")]. split; [reflexivity|].
    split; [simpl; now rewrite <- app_assoc|]. repeat split. simpl. lia.
  - rewrite (CacheFacts.get_repopulates RS FS w st v H G).
    eexists _, _, []. split; [reflexivity|]. repeat split. simpl. lia.
Qed.

(** What a call does when the roster read fails. *)
Lemma fallback_outcome RS FS w st e :
  cacheHit (facultyCache st) (clock st) = false ->
  values_get w (FS ++ "!A2:D") = GetFails e ->
  exists st',
    getFacultyDataFromSheets RS FS w st
    = (Returned
         match values_get w (RS ++ "!A2:A") with
         | GetOk v => Spec.syntheticRoster (orEmpty v)
         | GetFails _ => []
         end, st')
    /\ calls st' = (calls st ++ [CallGet (FS ++ "!A2:D"); CallGet (RS ++ "!A2:A")])%list
    /\ facultyCache st' = facultyCache st.
Proof.
  intros H G.
  rewrite (CacheFacts.get_falls_back RS FS w st e H G), CacheFacts.fallback_result.
  eexists. split; [|split].
  - f_equal. destruct (values_get w (RS ++ "!A2:A")) as [|v]; [reflexivity|].
    rewrite CacheFacts.newSet_firstOccurrences, CacheFacts.firstColumn_names.
    unfold mapIndexed. now rewrite CacheFacts.mapFrom_placeholder.
  - simpl. now rewrite <- app_assoc.
  - reflexivity.
Qed.

(** X6.  [getFacultyDataFromSheets] always returns a roster and never
    raises; it never appends a row.  When the cache holds a roster younger
    than five minutes it issues no remote call.  Otherwise it issues first
    a read of the roster range and, only when that read failed, after it a
    read of the first column of the review sheet; nothing else. *)
Theorem get_issues_reads_only :
  forall (RS FS : string) (w : Sheets) (st : State),
    let fresh :=
      exists d, data (facultyCache st) = Some d
                /\ (clock st - timestamp (facultyCache st) < 5 * 60 * 1000)%Z in
    exists roster st',
      getFacultyDataFromSheets RS FS w st = (Returned roster, st')
      /\ ((fresh /\ calls st' = calls st)
          \/ (~ fresh
              /\ (exists v, values_get w (FS ++ "!A2:D") = GetOk v)
              /\ calls st' = (calls st ++ [CallGet (FS ++ "!A2:D")])%list)
          \/ (~ fresh
              /\ (exists e, values_get w (FS ++ "!A2:D") = GetFails e)
              /\ calls st' = (calls st ++ [CallGet (FS ++ "!A2:D");
                                           CallGet (RS ++ "!A2:A")])%list)).
Proof.
  intros RS FS w st fresh.
  assert (F : cacheHit (facultyCache st) (clock st) = true <-> fresh)
    by apply CacheFacts.cacheHit_true.
  destruct (cacheHit (facultyCache st) (clock st)) eqn:H.
  - destruct (proj1 F eq_refl) as [d [D L]].
    rewrite (CacheFacts.get_hit RS FS w st d H D).
    exists d, st. split; [reflexivity|]. left. split; [now apply F | reflexivity].
  - assert (N : ~ fresh) by (intro X; apply F in X; discriminate X).
    destruct (get_miss RS FS w st H) as [roster [st' [rest [E [C [_ [_ M]]]]]]].
    rewrite E. exists roster, st'. split; [reflexivity|]. right.
    destruct (values_get w (FS ++ "!A2:D")) as [e|v].
    + right. destruct M as [_ ->]. split; [exact N|]. split; [now exists e | exact C].
    + left. destruct M as [_ [_ ->]]. split; [exact N|]. split; [now exists v | exact C].
Qed.

(** X7.  The roster derived from the reviews is not kept: after a call that
    fell back to it the cache is what it was, it is still expired at every
    later time, and the next call starts again with a read of the roster
    range. *)
Theorem fallback_is_not_cached :
  forall (RS FS : string) (w w2 : Sheets) (st : State) (e : string) (t : Z),
    cacheHit (facultyCache st) (clock st) = false ->
    values_get w (FS ++ "!A2:D") = GetFails e ->
    (clock st <= t)%Z ->
    facultyCache (snd (getFacultyDataFromSheets RS FS w st)) = facultyCache st
    /\ cacheHit (facultyCache (snd (getFacultyDataFromSheets RS FS w st))) t = false
    /\ exists rest,
        calls (snd (getFacultyDataFromSheets RS FS w2
                      (atTime t (snd (getFacultyDataFromSheets RS FS w st)))))
        = (calls (snd (getFacultyDataFromSheets RS FS w st))
           ++ CallGet (FS ++ "!A2:D") :: rest)%list.
Proof.
  intros RS FS w w2 st e t H G T.
  rewrite (CacheFacts.get_falls_back RS FS w st e H G), CacheFacts.fallback_result.
  cbn [snd]. set (st' := remote w (RS ++ "!A2:A") _ _).
  assert (C : facultyCache st' = facultyCache st) by reflexivity.
  assert (M : cacheHit (facultyCache st') t = false)
    by (rewrite C; now apply (cacheHit_later _ (clock st))).
  split; [exact C|]. split; [exact M|].
  destruct (get_miss RS FS w2 (atTime t st') M) as [r [s [rest [E [K _]]]]].
  exists rest. rewrite E. exact K.
Qed.

(** X8.  The records of the derived roster carry the ids 1, 2, ..., n without a
    gap, a name that is a non-empty cell of the review sheet's first column
    exactly as stored, and the placeholder texts. *)
Theorem fallback_roster_ids :
  forall (RS FS : string) (w : Sheets) (st : State) (e : string)
         (v : option (list Row)),
    cacheHit (facultyCache st) (clock st) = false ->
    values_get w (FS ++ "!A2:D") = GetFails e ->
    values_get w (RS ++ "!A2:A") = GetOk v ->
    exists roster,
      fst (getFacultyDataFromSheets RS FS w st) = Returned roster
      /\ map id roster = seq 1 (List.length roster)
      /\ Forall (fun f =>
                   name f <> ""
                   /\ (exists row, In row (orEmpty v) /\ nth_error row 0 = Some (name f))
                   /\ department f = "Not specified"
                   /\ subject f = "Not specified"
                   /\ mobile f = "Not available") roster.
Proof.
  intros RS FS w st e v H G V.
  rewrite (CacheFacts.get_falls_back RS FS w st e H G), CacheFacts.fallback_result, V.
  cbn [fst]. eexists. split; [reflexivity|].
  rewrite CacheFacts.newSet_firstOccurrences, CacheFacts.firstColumn_names.
  unfold mapIndexed. rewrite CacheFacts.mapFrom_placeholder.
  change (map Spec.wrap _) with (Spec.syntheticRoster (orEmpty v)).
  split; [apply CacheFacts.syntheticRoster_ids|].
  apply Forall_forall. intros f F.
  assert (N : In (name f) (Spec.firstColumnNames (orEmpty v))).
  { apply CacheFacts.firstOccurrences_In. rewrite <- CacheFacts.syntheticRoster_names.
    now apply in_map. }
  unfold Spec.firstColumnNames in N. apply filter_In in N as [N T].
  apply in_map_iff in N as [row [R I]].
  split; [now apply truthy_true|]. split.
  - exists row. split; [exact I|]. unfold cellOr in R.
    destruct (nth_error row 0) as [c|]; [now subst|].
    rewrite <- R in T. discriminate.
  - unfold Spec.syntheticRoster in F. apply in_map_iff in F as [[i n] [<- _]].
    repeat split.
Qed.

End RosterReadFacts.

(** ** The routes that read *)

Module ReadRouteFacts.
Import JsString JsStringFacts JsNumber JsValue Gateway Server.

Lemma get_returns RS FS w st :
  exists roster st', getFacultyDataFromSheets RS FS w st = (Returned roster, st').
Proof.
  destruct (CacheFacts.get_cases RS FS w st)
    as [[d [_ [_ G]]] | [[v [_ [_ G]]] | [e [r [s [_ [_ [G _]]]]]]]];
    rewrite G; eexists _, _; reflexivity.
Qed.

Lemma decodeFrom_plain s fuel :
  Roster.noPercent s = true ->
  (String.length s <= fuel)%nat ->
  decodeFrom fuel s = Some s.
Proof.
  revert fuel. induction s as [|c s IH]; intros fuel N L.
  - now destruct fuel.
  - destruct fuel as [|fuel]; [simpl in L; lia|].
    simpl in N. apply andb_true_iff in N as [C N].
    assert (R : decodeFrom fuel s = Some s) by (apply IH; [exact N | simpl in L; lia]).
    destruct c as [[] [] [] [] [] [] [] []]; try discriminate C;
      cbn [decodeFrom]; rewrite R; reflexivity.
Qed.

(** X9.  [decodeURIComponent] returns a string without a percent sign as it
    is; it does not throw on it. *)
Theorem decodeURIComponent_plain :
  forall s : string,
    Roster.noPercent s = true -> decodeURIComponent (Str s) = Some s.
Proof.
  intros s N. unfold decodeURIComponent. simpl. now apply decodeFrom_plain.
Qed.

(** X10.  The faculty-averages route answers 500 only for a [faculty] parameter
    that is a malformed percent-encoding, and then without a remote call.
    A failed read of the review sheet is not an error for it: the answer
    is the one for a name without reviews, status 200 with
    [success: false], [averages: null] and "No reviews found". *)
Theorem faculty_averages_hides_read_failure :
  forall (rev : Either.Revision) (RS : string) (w : Sheets) (faculty : value)
         (st : State),
    exists resp st',
      Either.apiFacultyAverages rev RS w faculty st = (Returned resp, st')
      /\ (status resp = 500%nat \/ status resp = 200%nat)
      /\ (status resp = 500%nat <-> decodeURIComponent faculty = None)
      /\ (status resp = 500%nat -> st' = st)
      /\ (forall e q,
            decodeURIComponent faculty = Some q ->
            values_get w (RS ++ "!A2:I") = GetFails e ->
            status resp = 200%nat
            /\ member "success" (body resp) = Some (JBool false)
            /\ member "averages" (body resp) = Some JNull
            /\ member "message" (body resp)
               = Some (JString ("No reviews found for " ++ q))).
Proof.
  intros rev RS w faculty st.
  assert (E : Either.apiFacultyAverages rev
              = fun RS => facultyAveragesRoute (Either.getFacultyAverages rev RS))
    by now destruct rev.
  rewrite E. unfold facultyAveragesRoute, tryCatch, bind.
  destruct (decodeURIComponent faculty) as [q|] eqn:D.
  - cbn [ret]. rewrite AverageFacts.getFacultyAverages_result.
    destruct (values_get w (RS ++ "!A2:I")) as [e|v] eqn:G.
    + eexists _, _. split; [reflexivity|]. cbn [status body].
      split; [now right|]. split; [split; discriminate|]. split; [discriminate|].
      intros e' q' [= <-] _. repeat split.
    + destruct (summarize _) as [a|]; eexists _, _; (split; [reflexivity|]);
        cbn [status body]; (split; [now right|]); (split; [split; discriminate|]);
        (split; [discriminate|]); intros e' q' _ [=].
  - eexists _, _. split; [reflexivity|]. cbn [status body].
    split; [now left|]. split; [split; reflexivity|]. split; [reflexivity|].
    intros e q [=].
Qed.

(** X11.  GET /api/faculty with no search term, or with a string as search
    term, never answers an error: it answers 200 with the roster that
    [getFacultyDataFromSheets] returned, the whole of it when the term is
    absent or empty and what [searchFaculty] keeps of it otherwise, with
    [total] the number of records sent; it does nothing to the state
    beyond what reading the roster did. *)
Theorem faculty_list_never_fails :
  forall (RS FS : string) (rev : Either.Revision) (w : Sheets) (st : State)
         (search : value),
    search = Undefined \/ (exists s, search = Str s) ->
    exists resp st' roster,
      Roster.apiFaculty RS FS rev w search st = (Returned resp, st')
      /\ getFacultyDataFromSheets RS FS w st = (Returned roster, st')
      /\ status resp = 200%nat
      /\ member "success" (body resp) = Some (JBool true)
      /\ let shown :=
           match search with
           | Str (String c r) => Either.searchFaculty rev roster (String c r)
           | _ => roster
           end in
         member "data" (body resp) = Some (Roster.jsonOfRoster shown)
         /\ member "total" (body resp) = Some (JNumber (ofNat (List.length shown))).
Proof.
  intros RS FS rev w st search S.
  destruct (get_returns RS FS w st) as [roster [st' G]].
  unfold Roster.apiFaculty, tryCatch, bind. rewrite G.
  destruct S as [-> | [[|c r] ->]]; cbn [ToBoolean truthy Roster.searchWith ret send];
    eexists _, _, roster; (split; [reflexivity|]); repeat split.
Qed.

Lemma nameContains_spec q f :
  Roster.nameContains q f = true <-> Spec.substringMatch q (name f).
Proof. unfold Roster.nameContains, Spec.substringMatch. apply includes_spec. Qed.

Lemma find_first {A} (p : A -> bool) pre x post :
  p x = true -> (forall y, In y pre -> p y = false) ->
  List.find p (pre ++ x :: post) = Some x.
Proof.
  intros X. induction pre as [|y pre IH]; intro H; simpl.
  - now rewrite X.
  - rewrite (H y (or_introl eq_refl)). apply IH. intros z Z. apply H. now right.
Qed.

(** X12.  GET /api/faculty/:name, for a parameter that decodes: it answers 404
    exactly when no record of the roster has a name containing the decoded
    name, case-insensitively, and then reads no review; otherwise it answers
    200 with the first such record of the roster, and with the statistics
    that [getFacultyAverages] returns for that record's stored name, not for
    the name asked. *)
Theorem faculty_by_name_first_match :
  forall (RS FS : string) (rev : Either.Revision) (w : Sheets) (st st1 : State)
         (param q : string) (roster : list Faculty),
    decodeURIComponent (Str param) = Some q ->
    getFacultyDataFromSheets RS FS w st = (Returned roster, st1) ->
    exists resp st',
      Roster.apiFacultyByName RS FS rev w param st = (Returned resp, st')
      /\ (status resp = 404%nat \/ status resp = 200%nat)
      /\ (status resp = 404%nat <->
          forall f, In f roster -> ~ Spec.substringMatch q (name f))
      /\ (status resp = 404%nat -> st' = st1)
      /\ (forall pre f post,
            roster = (pre ++ f :: post)%list ->
            Spec.substringMatch q (name f) ->
            (forall g, In g pre -> ~ Spec.substringMatch q (name g)) ->
            status resp = 200%nat
            /\ exists stats,
                Either.getFacultyAverages rev RS w (name f) st1 = (Returned stats, st')
                /\ member "data" (body resp)
                   = Some (object
                             (Roster.fieldsOfFaculty f
                              ++ [("statistics",
                                   match stats with
                                   | Some a => jsonOfAverages a
                                   | None => JNull
                                   end)])%list)).
Proof.
  intros RS FS rev w st st1 param q roster D G.
  unfold Roster.apiFacultyByName, tryCatch, bind. rewrite D. cbn [ret]. rewrite G.
  destruct (List.find (Roster.nameContains q) roster) as [f|] eqn:F.
  - destruct (Either.getFacultyAverages rev RS w (name f) st1) as [out st2] eqn:A.
    assert (O : exists stats, out = Returned stats).
    { rewrite AverageFacts.getFacultyAverages_result in A. injection A as <- _.
      eexists. reflexivity. }
    destruct O as [stats ->].
    eexists _, _. split; [reflexivity|]. cbn [status body].
    split; [now right|].
    destruct (find_some _ _ F) as [I P]. apply nameContains_spec in P.
    split; [split; [discriminate | intro H; exfalso; exact (H f I P)]|].
    split; [discriminate|].
    intros pre f' post R M N. split; [reflexivity|].
    assert (X : List.find (Roster.nameContains q) roster = Some f').
    { rewrite R. apply find_first; [now apply nameContains_spec|].
      intros g Ig. destruct (Roster.nameContains q g) eqn:C; [|reflexivity].
      apply nameContains_spec in C. exfalso. exact (N g Ig C). }
    rewrite F in X. injection X as <-.
    exists stats. split; [exact A | reflexivity].
  - eexists _, _. split; [reflexivity|]. cbn [status body].
    split; [now left|].
    split; [split; [|reflexivity]|].
    + intros _ f I M. apply nameContains_spec in M.
      now rewrite (find_none _ _ F f I) in M.
    + split; [reflexivity|].
      intros pre f post R M N. exfalso.
      apply nameContains_spec in M.
      rewrite (find_none _ _ F f) in M; [discriminate|].
      rewrite R. apply in_or_app. right. now left.
Qed.

End ReadRouteFacts.

(** ** The routes that write, and the refresh *)

Module WriteRouteFacts.
Import JsString JsStringFacts JsNumber JsValue Gateway Server.

(** X13.  POST /api/refresh-cache, on a clock that shows at least five
    minutes past the epoch, always reads the roster range again and always
    answers 200 with [totalFaculty] the size of the roster that read gave.
    When the read succeeds that is the roster of the sheet's named rows,
    no other call is made and the cache holds the roster, stamped with the
    time after the read.  When it fails that is the roster derived from the
    first column of the review sheet, read next (empty when this read
    fails too); the cache keeps the data it had, with the timestamp 0. *)
Theorem refresh_rereads_roster :
  forall (RS FS : string) (iso : Z -> string) (w : Sheets) (st : State),
    (CACHE_DURATION <= clock st)%Z ->
    exists resp st' roster,
      Roster.apiRefreshCache RS FS iso w st = (Returned resp, st')
      /\ status resp = 200%nat
      /\ member "data" (body resp)
         = Some (object [("totalFaculty", JNumber (ofNat (List.length roster)));
                         ("lastUpdated", JString (iso (clock st')))])
      /\ match values_get w (FS ++ "!A2:D") with
         | GetOk v =>
             roster = filter hasName (mapIndexed facultyOfRow (orEmpty v))
             /\ calls st' = (calls st ++ [CallGet (FS ++ "!A2:D")])%list
             /\ facultyCache st' = {| data := Some roster; timestamp := clock st' |}
         | GetFails _ =>
             roster = match values_get w (RS ++ "!A2:A") with
                      | GetOk names => Spec.syntheticRoster (orEmpty names)
                      | GetFails _ => []
                      end
             /\ calls st' = (calls st ++ [CallGet (FS ++ "!A2:D");
                                          CallGet (RS ++ "!A2:A")])%list
             /\ data (facultyCache st') = data (facultyCache st)
             /\ timestamp (facultyCache st') = 0%Z
         end.
Proof.
  intros RS FS iso w st H.
  unfold Roster.apiRefreshCache, tryCatch, bind at 1, resetTimestamp, bind at 1,
    getCache, setCache, bind.
  set (st0 := {| facultyCache := {| data := data (facultyCache st); timestamp := 0 |};
                 clock := clock st; calls := calls st |}).
  assert (M : cacheHit (facultyCache st0) (clock st0) = false)
    by (apply RosterReadFacts.cacheHit_expired; [reflexivity | exact H]).
  destruct (values_get w (FS ++ "!A2:D")) as [e|v] eqn:G.
  - destruct (RosterReadFacts.fallback_outcome RS FS w st0 e M G) as [st' [E [C K]]].
    rewrite E. cbn [dateNow send ret].
    eexists _, st', _. split; [reflexivity|]. split; [reflexivity|].
    split; [reflexivity|]. split; [reflexivity|]. split; [exact C|].
    rewrite K. now split.
  - rewrite (CacheFacts.get_repopulates RS FS w st0 v M G). cbn [dateNow send ret].
    eexists _, _, _. split; [reflexivity|]. split; [reflexivity|].
    split; [reflexivity|]. now repeat split.
Qed.

Lemma submit_outcome RS tls columns w b st :
  exists resp st',
    submitReviewRoute RS tls columns w b st = (Returned resp, st')
    /\ ((Writes.passesValidation b = false /\ status resp = 400%nat /\ st' = st)
        \/ (Writes.passesValidation b = true
            /\ (forall s, ReviewBody.name b <> Str s)
            /\ status resp = 500%nat /\ st' = st)
        \/ (exists s e,
              Writes.passesValidation b = true
              /\ ReviewBody.name b = Str s
              /\ values_append w (RS ++ columns) (Writes.reviewData tls b s (clock st))
                 = AppendFails e
              /\ status resp = 500%nat
              /\ st' = remote w (RS ++ columns)
                         (CallAppend (RS ++ columns) (Writes.reviewData tls b s (clock st)))
                         st)
        \/ (exists s,
              Writes.passesValidation b = true
              /\ ReviewBody.name b = Str s
              /\ values_append w (RS ++ columns) (Writes.reviewData tls b s (clock st))
                 = AppendOk
              /\ status resp = 200%nat
              /\ st' = {| facultyCache := {| data := data (facultyCache st); timestamp := 0 |};
                          clock := (clock st + latency w (RS ++ columns))%Z;
                          calls := (calls st
                                    ++ [CallAppend (RS ++ columns)
                                          (Writes.reviewData tls b s (clock st))])%list |})).
Proof.
  unfold Writes.passesValidation.
  destruct (negb (ToBoolean (ReviewBody.name b)) || isNaN (ReviewBody.teaching b)
            || isNaN (ReviewBody.evaluation b) || isNaN (ReviewBody.behaviour b)
            || isNaN (ReviewBody.internals b) || isNaN (ReviewBody.classAverage b)
            || isNaN (ReviewBody.overall b)) eqn:C1.
  - rewrite (RouteFacts.submit_rejects_missing RS tls columns w b st C1).
    eexists _, _. split; [reflexivity|]. left. repeat split.
  - destruct (existsb outOfRange _) eqn:C2.
    + rewrite (RouteFacts.submit_rejects_range RS tls columns w b st C1 C2).
      eexists _, _. split; [reflexivity|]. left. repeat split.
    + unfold submitReviewRoute, tryCatch. rewrite C1, C2.
      unfold bind, dateNow, sheetsAppend, resetTimestamp, bind, getCache, setCache, send, ret.
      destruct (ReviewBody.name b) as [| |nb|nx|s] eqn:N; cbn [trimOf throw ret];
        try (eexists _, _; split; [reflexivity|]; right; left;
             repeat split; intros; discriminate).
      fold (Writes.reviewData tls b s (clock st)).
      destruct (values_append w (RS ++ columns) (Writes.reviewData tls b s (clock st)))
        as [e|] eqn:A; eexists _, _; (split; [reflexivity|]).
      * right; right; left. exists s, e. repeat split. exact A.
      * right; right; right. exists s. repeat split. exact A.
Qed.

(** X14.  POST /api/submit-review, in either revision, answers 400 exactly when
    one of its two checks rejects the body, and 200 exactly when the body
    passes them, the name is a string and the append succeeds; every other
    case is a 500.  Only a 200 touches the cache; a 400 leaves the whole
    state as it was, and a 500 has made at most the one failed append. *)
Theorem submit_review_status :
  forall (rev : Either.Revision) (RS : string) (tls : Z -> string) (w : Sheets)
         (b : ReviewBody.t) (st : State),
    exists resp st',
      Either.apiSubmitReview rev RS tls w b st = (Returned resp, st')
      /\ (status resp = 200%nat \/ status resp = 400%nat \/ status resp = 500%nat)
      /\ (status resp = 400%nat <-> Writes.passesValidation b = false)
      /\ (status resp = 200%nat <->
          Writes.passesValidation b = true
          /\ exists s,
              ReviewBody.name b = Str s
              /\ values_append w (Writes.reviewRange rev RS)
                   (Writes.reviewData tls b s (clock st)) = AppendOk)
      /\ (status resp = 400%nat -> st' = st)
      /\ (status resp <> 200%nat ->
          facultyCache st' = facultyCache st
          /\ (calls st' = calls st
              \/ exists row, calls st' = (calls st ++ [CallAppend (Writes.reviewRange rev RS) row])%list
                             /\ values_append w (Writes.reviewRange rev RS) row <> AppendOk)).
Proof.
  intros rev RS tls w b st.
  assert (E : exists columns,
             Either.apiSubmitReview rev RS tls = submitReviewRoute RS tls columns
             /\ Writes.reviewRange rev RS = RS ++ columns)
    by (destruct rev; eexists; split; reflexivity).
  destruct E as [columns [-> ->]].
  destruct (submit_outcome RS tls columns w b st)
    as [resp [st' [R [[P [S ->]] | [[P [N [S ->]]] | [[s [e [P [N [A [S ->]]]]]] | [s [P [N [A [S ->]]]]]]]]]]];
    exists resp; eexists; (split; [exact R|]); rewrite S, P.
  - split; [tauto|]. split; [tauto|]. split.
    + split; [discriminate | intros [X _]; discriminate].
    + split; [reflexivity|]. intros _. split; [reflexivity | now left].
  - split; [tauto|]. split; [split; discriminate|]. split.
    + split; [discriminate | intros [_ [s [X _]]]; exfalso; exact (N s X)].
    + split; [discriminate|]. intros _. split; [reflexivity | now left].
  - split; [tauto|]. split; [split; discriminate|]. split.
    + split; [discriminate|]. intros [_ [s' [X Y]]]. rewrite N in X.
      injection X as <-. rewrite A in Y. discriminate.
    + split; [discriminate|]. intros _. split; [reflexivity|].
      right. eexists. split; [reflexivity|]. rewrite A. discriminate.
  - split; [tauto|]. split; [split; discriminate|]. split.
    + split; [intros _; split; [reflexivity|]; exists s; now split | reflexivity].
    + split; [discriminate|]. intros X. now exfalso.
Qed.

Lemma passes_withClassAverage b c :
  Writes.passesValidation b = true ->
  isNaN c = false ->
  Writes.passesValidation (Writes.withClassAverage b c) = true.
Proof.
  unfold Writes.passesValidation, Writes.withClassAverage. cbn.
  intros P C. rewrite C.
  apply andb_true_iff in P. destruct P as [P1 P2]. rewrite P2, andb_true_r.
  apply negb_true_iff in P1. apply negb_true_iff.
  destruct (negb (ToBoolean (ReviewBody.name b))); [discriminate|].
  destruct (isNaN (ReviewBody.teaching b)); [discriminate|].
  destruct (isNaN (ReviewBody.evaluation b)); [discriminate|].
  destruct (isNaN (ReviewBody.behaviour b)); [discriminate|].
  destruct (isNaN (ReviewBody.internals b)); [discriminate|].
  cbn in *. destruct (isNaN (ReviewBody.classAverage b)); [discriminate|].
  exact P1.
Qed.

(** X15.  The range check of POST /api/submit-review leaves [classAverage] out:
    in a body that passes the two checks, [classAverage] may be replaced
    by any value that [isNaN] accepts, whatever its size or sign; the body
    still passes, and once the append succeeds the answer is a 200 whose
    row holds [parseFloat] of that value in its sixth cell and whose
    [data.ratings.classAverage] is that number as JSON writes it, [null]
    when it is not finite. *)
Theorem class_average_not_range_checked :
  forall (rev : Either.Revision) (RS : string) (tls : Z -> string) (w : Sheets)
         (b : ReviewBody.t) (c : value) (s : string) (st : State),
    Writes.passesValidation b = true ->
    ReviewBody.name b = Str s ->
    isNaN c = false ->
    let b' := Writes.withClassAverage b c in
    let row := Writes.reviewData tls b' s (clock st) in
    values_append w (Writes.reviewRange rev RS) row = AppendOk ->
    Writes.passesValidation b' = true
    /\ nth_error row 5 = Some (Num (parseFloat c))
    /\ exists resp st' data ratings,
        Either.apiSubmitReview rev RS tls w b' st = (Returned resp, st')
        /\ status resp = 200%nat
        /\ calls st' = (calls st ++ [CallAppend (Writes.reviewRange rev RS) row])%list
        /\ member "data" (body resp) = Some data
        /\ member "ratings" data = Some ratings
        /\ member "classAverage" ratings = Some (jsonOfNumber (parseFloat c)).
Proof.
  intros rev RS tls w b c s st P N C b' row A.
  pose proof (passes_withClassAverage b c P C) as P'. fold b' in P'.
  split; [exact P'|]. split; [reflexivity|].
  assert (E : exists columns,
             Either.apiSubmitReview rev RS tls = submitReviewRoute RS tls columns
             /\ Writes.reviewRange rev RS = RS ++ columns)
    by (destruct rev; eexists; split; reflexivity).
  destruct E as [columns [E1 E2]]. rewrite E1. rewrite E2 in *.
  unfold submitReviewRoute, tryCatch.
  unfold Writes.passesValidation in P'. apply andb_true_iff in P'.
  destruct P' as [P1 P2]. apply negb_true_iff in P1, P2. rewrite P1, P2.
  assert (N' : ReviewBody.name b' = Str s) by exact N. rewrite N'.
  unfold bind, dateNow, sheetsAppend, resetTimestamp, bind, getCache, setCache, send, ret.
  cbn [trimOf ret]. fold (Writes.reviewData tls b' s (clock st)). fold row.
  rewrite A. eexists _, _, _, _. repeat split.
Qed.

(** X16.  A name of white space only passes the checks of POST
    /api/submit-review, which ask for a non-empty string before trimming
    it: the review is appended with the empty string in the name column,
    and the 200 answer reports the empty string as the faculty. *)
Theorem submit_blank_name_is_stored :
  forall (rev : Either.Revision) (RS : string) (tls : Z -> string) (w : Sheets)
         (b : ReviewBody.t) (s : string) (st : State),
    Writes.passesValidation b = true ->
    ReviewBody.name b = Str s ->
    trim s = EmptyString ->
    values_append w (Writes.reviewRange rev RS)
      (Writes.reviewData tls b s (clock st)) = AppendOk ->
    s <> EmptyString
    /\ exists resp st' rest data,
        Either.apiSubmitReview rev RS tls w b st = (Returned resp, st')
        /\ status resp = 200%nat
        /\ calls st' = (calls st ++ [CallAppend (Writes.reviewRange rev RS)
                                       (Str EmptyString :: rest)])%list
        /\ member "data" (body resp) = Some data
        /\ member "faculty" data = Some (JString EmptyString).
Proof.
  intros rev RS tls w b s st P N T A.
  split.
  { intros ->. unfold Writes.passesValidation in P. rewrite N in P.
    cbn in P. discriminate. }
  assert (E : exists columns,
             Either.apiSubmitReview rev RS tls = submitReviewRoute RS tls columns
             /\ Writes.reviewRange rev RS = RS ++ columns)
    by (destruct rev; eexists; split; reflexivity).
  destruct E as [columns [E1 E2]]. rewrite E1. rewrite E2 in *.
  unfold submitReviewRoute, tryCatch.
  unfold Writes.passesValidation in P. apply andb_true_iff in P.
  destruct P as [P1 P2]. apply negb_true_iff in P1, P2. rewrite P1, P2.
  rewrite N.
  unfold bind, dateNow, sheetsAppend, resetTimestamp, bind, getCache, setCache, send, ret.
  cbn [trimOf ret]. fold (Writes.reviewData tls b s (clock st)).
  rewrite A. unfold Writes.reviewData. rewrite T.
  eexists _, _, _, _. repeat split.
Qed.

(** The row POST /api/add-faculty appends for the texts of a body. *)
Lemma addFaculty_outcome FS w b st :
  exists resp st',
    addFacultyRoute FS w b st = (Returned resp, st')
    /\ ((ToBoolean (FacultyBody.name b) && ToBoolean (FacultyBody.department b) = false
         /\ status resp = 400%nat /\ st' = st)
        \/ (ToBoolean (FacultyBody.name b) && ToBoolean (FacultyBody.department b) = true
            /\ (forall n d s m,
                   FacultyBody.name b = Str n ->
                   FacultyBody.department b = Str d ->
                   Writes.optionalText (FacultyBody.subject b) = Some s ->
                   Writes.optionalText (FacultyBody.mobile b) = Some m -> False)
            /\ status resp = 500%nat /\ st' = st)
        \/ (exists n d s m,
              ToBoolean (FacultyBody.name b) && ToBoolean (FacultyBody.department b) = true
              /\ FacultyBody.name b = Str n
              /\ FacultyBody.department b = Str d
              /\ Writes.optionalText (FacultyBody.subject b) = Some s
              /\ Writes.optionalText (FacultyBody.mobile b) = Some m
              /\ let row := [Str (trim n); Str (trim d); Str s; Str m] in
                 (exists e, values_append w (FS ++ "!A2:D") row = AppendFails e
                            /\ status resp = 500%nat
                            /\ st' = remote w (FS ++ "!A2:D")
                                       (CallAppend (FS ++ "!A2:D") row) st)
                 \/ (values_append w (FS ++ "!A2:D") row = AppendOk
                     /\ status resp = 200%nat
                     /\ st' = {| facultyCache := {| data := data (facultyCache st);
                                                    timestamp := 0 |};
                                 clock := (clock st + latency w (FS ++ "!A2:D"))%Z;
                                 calls := (calls st
                                           ++ [CallAppend (FS ++ "!A2:D") row])%list |}))).
Proof.
  unfold addFacultyRoute, tryCatch.
  destruct (ToBoolean (FacultyBody.name b)) eqn:TN; cbn [negb orb andb];
    [destruct (ToBoolean (FacultyBody.department b)) eqn:TD; cbn [negb orb andb]|];
    try (eexists _, _; split; [reflexivity|]; left; repeat split).
  unfold bind, sheetsAppend, resetTimestamp, bind, getCache, setCache, send, ret.
  destruct (FacultyBody.name b) as [| |nb|nx|n] eqn:N;
    try discriminate TN;
    cbn [trimOf throw ret ToString];
    try (eexists _, _; split; [reflexivity|]; right; left;
         repeat split; intros; discriminate).
  destruct (FacultyBody.department b) as [| |db|dx|d] eqn:D;
    try discriminate TD;
    cbn [trimOf throw ret ToString];
    try (eexists _, _; split; [reflexivity|]; right; left;
         repeat split; intros; discriminate).
  destruct (FacultyBody.subject b) as [| |sb|sx|s] eqn:S;
    cbn [trimOrEmpty throw ret ToString Writes.optionalText];
    try (eexists _, _; split; [reflexivity|]; right; left;
         repeat split; intros; discriminate);
  (destruct (FacultyBody.mobile b) as [| |mb|mx|m] eqn:Mo;
    cbn [trimOrEmpty throw ret ToString Writes.optionalText];
    try (eexists _, _; split; [reflexivity|]; right; left;
         repeat split; intros; discriminate));
  (match goal with
   | |- context [values_append w ?r ?row] =>
       destruct (values_append w r row) as [e|] eqn:A
   end;
   eexists _, _; (split; [reflexivity|]); right; right;
   eexists _, _, _, _; (split; [reflexivity|]);
   do 4 (split; [reflexivity|]); cbv zeta;
   [ left; exists e; split; [exact A | now split]
   | right; split; [exact A | now split] ]).
Qed.

(** X17.  POST /api/add-faculty answers 400 exactly when the name or the
    department is missing or empty, and 200 exactly when both are strings,
    the subject and the mobile number are strings or absent, and the append
    of the row of the four texts, trimmed, with the empty string for an
    absent one, succeeds.  Every other case is a 500.  A 200 has made that
    one append and set the cache's timestamp to 0, keeping its data; a 400
    leaves the whole state as it was; no other answer touches the cache. *)
Theorem add_faculty_status :
  forall (FS : string) (w : Sheets) (b : FacultyBody.t) (st : State),
    exists resp st',
      addFacultyRoute FS w b st = (Returned resp, st')
      /\ (status resp = 200%nat \/ status resp = 400%nat \/ status resp = 500%nat)
      /\ (status resp = 400%nat <->
          ToBoolean (FacultyBody.name b) && ToBoolean (FacultyBody.department b) = false)
      /\ (status resp = 200%nat <->
          ToBoolean (FacultyBody.name b) && ToBoolean (FacultyBody.department b) = true
          /\ exists n d s m,
              FacultyBody.name b = Str n
              /\ FacultyBody.department b = Str d
              /\ Writes.optionalText (FacultyBody.subject b) = Some s
              /\ Writes.optionalText (FacultyBody.mobile b) = Some m
              /\ values_append w (FS ++ "!A2:D")
                   [Str (trim n); Str (trim d); Str s; Str m] = AppendOk)
      /\ (status resp = 200%nat ->
          forall n d s m,
            FacultyBody.name b = Str n ->
            FacultyBody.department b = Str d ->
            Writes.optionalText (FacultyBody.subject b) = Some s ->
            Writes.optionalText (FacultyBody.mobile b) = Some m ->
            calls st' = (calls st ++ [CallAppend (FS ++ "!A2:D")
                                        [Str (trim n); Str (trim d); Str s; Str m]])%list
            /\ facultyCache st' = {| data := data (facultyCache st); timestamp := 0 |})
      /\ (status resp = 400%nat -> st' = st)
      /\ (status resp <> 200%nat -> facultyCache st' = facultyCache st).
Proof.
  intros FS w b st.
  destruct (addFaculty_outcome FS w b st) as [resp [st' [R Cases]]].
  destruct Cases as [[P [S ->]] | [[P [N [S ->]]] | Cases]];
    [| | destruct Cases as [n [d [s [m [P [En [Ed [Es [Em Cases]]]]]]]]];
         cbv zeta in Cases;
         destruct Cases as [[e [A [S ->]]] | [A [S ->]]]];
    exists resp; eexists; (split; [exact R|]); rewrite S, P.
  - split; [tauto|]. split; [tauto|]. split.
    + split; [discriminate | intros [X _]; discriminate].
    + split; [discriminate|]. split; [reflexivity|]. reflexivity.
  - split; [tauto|]. split; [split; discriminate|]. split.
    + split; [discriminate|].
      intros [_ [n [d [s [m [X1 [X2 [X3 [X4 _]]]]]]]]]. exfalso. exact (N n d s m X1 X2 X3 X4).
    + split; [discriminate|]. split; [discriminate|]. reflexivity.
  - split; [tauto|]. split; [split; discriminate|]. split.
    + split; [discriminate|].
      intros [_ [n' [d' [s' [m' [X1 [X2 [X3 [X4 Y]]]]]]]]].
      rewrite En in X1. rewrite Ed in X2. rewrite Es in X3. rewrite Em in X4.
      injection X1 as <-. injection X2 as <-. injection X3 as <-. injection X4 as <-.
      rewrite A in Y. discriminate.
    + split; [discriminate|]. split; [discriminate|]. reflexivity.
  - split; [tauto|]. split; [split; discriminate|]. split.
    + split; [intros _; split; [reflexivity|]; exists n, d, s, m; now repeat split
             | reflexivity].
    + split.
      * intros _ n' d' s' m' X1 X2 X3 X4.
        rewrite En in X1. rewrite Ed in X2. rewrite Es in X3. rewrite Em in X4.
        injection X1 as <-. injection X2 as <-. injection X3 as <-. injection X4 as <-.
        now split.
      * split; [discriminate | intros X; now exfalso].
Qed.

End WriteRouteFacts.

(** ** More on the aggregation engine *)

Module AggregationFacts.
Import JsString JsNumber JsValue Gateway Server.

Lemma filter_head {A} (p : A -> bool) (l : list A) x t :
  filter p l = x :: t ->
  exists pre post,
    l = (pre ++ x :: post)%list /\ filter p pre = [] /\ p x = true
    /\ t = filter p post.
Proof.
  induction l as [|y l IH]; [discriminate|]. simpl.
  destruct (p y) eqn:Y.
  - intros [= -> <-]. exists [], l. now repeat split.
  - intros F. destruct (IH F) as [pre [post [-> [F1 [Px ->]]]]].
    exists (y :: pre), post. simpl. rewrite Y. now repeat split.
Qed.

(** X18.  When [getFacultyAverages], in either revision, returns an object, the
    review sheet was read, and [latestReview] is the first row of the
    sheet, in the order read, that the revision's filter selects: no row
    before it is selected.  [count] is one more than the number of selected
    rows after it.  Rows are appended at the end of the sheet, so this is
    the oldest matching review. *)
Theorem latest_review_is_first_match :
  forall (rev : Either.Revision) (RS : string) (w : Sheets) (facultyName : string)
         (st : State) (a : FacultyAverages),
    fst (Either.getFacultyAverages rev RS w facultyName st) = Returned (Some a) ->
    exists v pre post,
      values_get w (RS ++ "!A2:I") = GetOk v
      /\ orEmpty v = (pre ++ latestReview a :: post)%list
      /\ filter (Either.selects rev facultyName) pre = []
      /\ Either.selects rev facultyName (latestReview a) = true
      /\ count a = S (List.length (filter (Either.selects rev facultyName) post)).
Proof.
  intros rev RS w facultyName st a.
  rewrite AverageFacts.getFacultyAverages_result. cbn [fst].
  destruct (values_get w (RS ++ "!A2:I")) as [e|v];
    [intros X; discriminate X|].
  destruct (filter (Either.selects rev facultyName) (orEmpty v)) as [|x t] eqn:F;
    [intros X; discriminate X|].
  cbn [summarize]. intros [= <-]. cbn [latestReview count].
  destruct (filter_head _ _ _ _ F) as [pre [post [E [F1 [Px ->]]]]].
  exists v, pre, post. now repeat split.
Qed.

(** X19.  A review row whose cell in a column is missing, empty or not a number
    does not enter that column's average, wherever the row stands among
    the reviews. *)
Theorem invalid_cell_leaves_average :
  forall (before after : list Row) (row : Row) (index : nat),
    validEntry index row = false ->
    calculateAverage (before ++ row :: after) index
    = calculateAverage (before ++ after) index.
Proof.
  intros before after row index V. unfold calculateAverage.
  rewrite !filter_app. cbn [filter]. now rewrite V.
Qed.

End AggregationFacts.

(** ** The further theorems at concrete inputs *)

Module MoreWitnesses.
Import JsString JsNumber JsValue Gateway Server.

(** The reviews of "dr. rao" in the later revision are among those of the
    first. *)
Lemma later_selection_within_first_witness :
  trim "dr. rao" = "dr. rao"
  /\ (List.length (filter (Either.selects Either.Later "dr. rao") Scenario.reviews)
      <= List.length (filter (Either.selects Either.First "dr. rao") Scenario.reviews))%nat.
Proof.
  split; [reflexivity|].
  exact (proj2 (MatchingFacts.later_selection_within_first Scenario.reviews "dr. rao"
                  eq_refl)).
Defined.

(** Dr. Iyer is found by "Dr. Iyer", by "Mathematics" and by "Algebra". *)
Lemma search_finds_own_fields_witness :
  In Cases.iyer Cases.roster
  /\ In Cases.iyer (Either.searchFaculty Either.Later Cases.roster "Dr. Iyer")
  /\ In Cases.iyer (Either.searchFaculty Either.Later Cases.roster "Mathematics")
  /\ In Cases.iyer (Either.searchFaculty Either.Later Cases.roster "Algebra").
Proof.
  assert (I : In Cases.iyer Cases.roster) by (simpl; tauto).
  split; [exact I|].
  exact (MatchingFacts.search_finds_own_fields Either.Later Cases.roster Cases.iyer I).
Defined.

(** The empty name over [Scenario.reviews]: the first revision averages
    over the three rows. *)
Lemma averages_for_empty_name_witness :
  values_get Scenario.reviewSheet ("Reviews" ++ "!A2:I") = GetOk (Some Scenario.reviews)
  /\ fst (Either.getFacultyAverages Either.First "Reviews" Scenario.reviewSheet ""
            Scenario.start)
     = Returned (summarize (filter (fun row => truthy (cellOr row 0))
                              (orEmpty (Some Scenario.reviews)))).
Proof.
  split; [reflexivity|].
  exact (proj1 (MatchingFacts.averages_for_empty_name "Reviews" Scenario.reviewSheet
                  Scenario.start (Some Scenario.reviews) eq_refl)).
Defined.

(** Without the roster sheet, a second call one second later reads the
    roster sheet again. *)
Lemma fallback_is_not_cached_witness :
  let first :=
    getFacultyDataFromSheets "Reviews" "Faculty" Scenario.sheetWithoutRoster
      Scenario.start in
  let t := (clock Scenario.start + 1000)%Z in
  cacheHit (facultyCache Scenario.start) (clock Scenario.start) = false
  /\ values_get Scenario.sheetWithoutRoster ("Faculty" ++ "!A2:D")
     = GetFails "Unable to parse range: Faculty!A2:D"
  /\ (clock Scenario.start <= t)%Z
  /\ facultyCache (snd first) = facultyCache Scenario.start
  /\ cacheHit (facultyCache (snd first)) t = false.
Proof.
  cbv zeta.
  split; [reflexivity|]. split; [reflexivity|]. split; [vm_compute; discriminate|].
  destruct (RosterReadFacts.fallback_is_not_cached "Reviews" "Faculty"
              Scenario.sheetWithoutRoster Scenario.sheetWithoutRoster Scenario.start
              "Unable to parse range: Faculty!A2:D" (clock Scenario.start + 1000)%Z
              eq_refl eq_refl ltac:(vm_compute; discriminate))
    as [C [M _]].
  split; [exact C | exact M].
Defined.

(** The fallback roster of [Scenario.reviews] has the ids 1, 2. *)
Lemma fallback_roster_ids_witness :
  cacheHit (facultyCache Scenario.start) (clock Scenario.start) = false
  /\ values_get Scenario.sheetWithoutRoster ("Faculty" ++ "!A2:D")
     = GetFails "Unable to parse range: Faculty!A2:D"
  /\ values_get Scenario.sheetWithoutRoster ("Reviews" ++ "!A2:A")
     = GetOk (Some Scenario.reviews)
  /\ exists roster,
      fst (getFacultyDataFromSheets "Reviews" "Faculty" Scenario.sheetWithoutRoster
             Scenario.start) = Returned roster
      /\ map id roster = seq 1 (List.length roster).
Proof.
  split; [reflexivity|]. split; [reflexivity|]. split; [reflexivity|].
  destruct (RosterReadFacts.fallback_roster_ids "Reviews" "Faculty"
              Scenario.sheetWithoutRoster Scenario.start
              "Unable to parse range: Faculty!A2:D" (Some Scenario.reviews)
              eq_refl eq_refl eq_refl)
    as [roster [R [I _]]].
  exists roster. split; [exact R | exact I].
Defined.

(** A name as it is, with its space. *)
Lemma decodeURIComponent_plain_witness :
  Roster.noPercent "Dr. Rao" = true
  /\ decodeURIComponent (Str "Dr. Rao") = Some "Dr. Rao".
Proof.
  split; [reflexivity|].
  exact (ReadRouteFacts.decodeURIComponent_plain "Dr. Rao" eq_refl).
Defined.

(** GET /api/faculty?search=rao. *)
Lemma faculty_list_never_fails_witness :
  (Str "rao" = Undefined \/ exists s, Str "rao" = Str s)
  /\ exists resp st',
      Roster.apiFaculty "Reviews" "Faculty" Either.Later Cases.college (Str "rao")
        Scenario.start = (Returned resp, st')
      /\ status resp = 200%nat
      /\ member "total" (body resp) = Some (JNumber (ofNat 1)).
Proof.
  assert (S : Str "rao" = Undefined \/ exists s, Str "rao" = Str s)
    by (right; exists "rao"; reflexivity).
  split; [exact S|].
  destruct (ReadRouteFacts.faculty_list_never_fails "Reviews" "Faculty" Either.Later
              Cases.college Scenario.start (Str "rao") S)
    as [resp [st' [roster [R [G [C [_ [_ T]]]]]]]].
  exists resp, st'. split; [exact R|]. split; [exact C|].
  rewrite T. vm_compute in G. injection G as <- _. vm_compute. reflexivity.
Defined.

(** GET /api/faculty/Dr.%20 finds Dr. Rao, the first of the three. *)
Lemma faculty_by_name_first_match_witness :
  decodeURIComponent (Str "Dr.%20") = Some "Dr. "
  /\ exists st1,
      getFacultyDataFromSheets "Reviews" "Faculty" Cases.college Scenario.start
      = (Returned Cases.roster, st1)
      /\ exists resp st',
          Roster.apiFacultyByName "Reviews" "Faculty" Either.Later Cases.college
            "Dr.%20" Scenario.start = (Returned resp, st')
          /\ status resp = 200%nat
          /\ exists stats,
              Either.getFacultyAverages Either.Later "Reviews" Cases.college "Dr. Rao" st1
              = (Returned stats, st')
              /\ member "data" (body resp)
                 = Some (object
                           (Roster.fieldsOfFaculty Cases.rao
                            ++ [("statistics",
                                 match stats with
                                 | Some a => jsonOfAverages a
                                 | None => JNull
                                 end)])%list).
Proof.
  split; [reflexivity|].
  eexists. split; [vm_compute; reflexivity|].
  destruct (ReadRouteFacts.faculty_by_name_first_match "Reviews" "Faculty" Either.Later
              Cases.college Scenario.start _ "Dr.%20" "Dr. " Cases.roster
              eq_refl ltac:(vm_compute; reflexivity))
    as [resp [st' [R [_ [_ [_ F]]]]]].
  exists resp, st'. split; [exact R|].
  apply (F [] Cases.rao [Cases.singh; Cases.iyer]).
  - reflexivity.
  - exists "", "rao". reflexivity.
  - intros g [].
Defined.

(** A refresh on a warm cache reads the roster sheet and reports its three
    records. *)
Lemma refresh_rereads_roster_witness :
  (CACHE_DURATION <= clock Scenario.warm)%Z
  /\ exists resp st',
      Roster.apiRefreshCache "Reviews" "Faculty" Cases.isoStamp Cases.college
        Scenario.warm = (Returned resp, st')
      /\ status resp = 200%nat
      /\ member "data" (body resp)
         = Some (object [("totalFaculty", JNumber (ofNat 3));
                         ("lastUpdated", JString (Cases.isoStamp (clock st')))])
      /\ calls st' = (calls Scenario.warm ++ [CallGet ("Faculty" ++ "!A2:D")])%list.
Proof.
  assert (H : (CACHE_DURATION <= clock Scenario.warm)%Z) by (vm_compute; discriminate).
  split; [exact H|].
  destruct (WriteRouteFacts.refresh_rereads_roster "Reviews" "Faculty" Cases.isoStamp
              Cases.college Scenario.warm H)
    as [resp [st' [roster [R [S [D X]]]]]].
  exists resp, st'. split; [exact R|]. split; [exact S|].
  change (values_get Cases.college ("Faculty" ++ "!A2:D"))
    with (GetOk (Some [["Dr. Rao"; "CSE"; "Algorithms"; "9000000001"];
                       ["Dr. Singh"; "ECE"];
                       ["Dr. Iyer"; "Mathematics"; "Algebra"]])) in X.
  destruct X as [-> [C _]]. split; [exact D | exact C].
Defined.

(** A class average of -1000 is stored. *)
Lemma class_average_not_range_checked_witness :
  Writes.passesValidation Scenario.review = true
  /\ ReviewBody.name Scenario.review = Str " Dr. Rao "
  /\ isNaN Cases.minusThousand = false
  /\ values_append Scenario.reviewSheet (Writes.reviewRange Either.Later "Reviews")
       (Writes.reviewData Scenario.stamp
          (Writes.withClassAverage Scenario.review Cases.minusThousand)
          " Dr. Rao " (clock Scenario.start)) = AppendOk
  /\ Writes.passesValidation
       (Writes.withClassAverage Scenario.review Cases.minusThousand) = true
  /\ exists resp st',
      Either.apiSubmitReview Either.Later "Reviews" Scenario.stamp Scenario.reviewSheet
        (Writes.withClassAverage Scenario.review Cases.minusThousand) Scenario.start
      = (Returned resp, st')
      /\ status resp = 200%nat.
Proof.
  split; [vm_compute; reflexivity|]. split; [reflexivity|].
  split; [vm_compute; reflexivity|]. split; [reflexivity|].
  destruct (WriteRouteFacts.class_average_not_range_checked Either.Later "Reviews"
              Scenario.stamp Scenario.reviewSheet Scenario.review Cases.minusThousand
              " Dr. Rao " Scenario.start
              ltac:(vm_compute; reflexivity) eq_refl ltac:(vm_compute; reflexivity)
              eq_refl)
    as [P [_ [resp [st' [data [ratings [R [S _]]]]]]]].
  split; [exact P|]. exists resp, st'. split; [exact R | exact S].
Defined.

(** A name of three spaces. *)
Lemma submit_blank_name_is_stored_witness :
  Writes.passesValidation Cases.blankNameReview = true
  /\ ReviewBody.name Cases.blankNameReview = Str "   "
  /\ trim "   " = EmptyString
  /\ values_append Scenario.reviewSheet (Writes.reviewRange Either.First "Reviews")
       (Writes.reviewData Scenario.stamp Cases.blankNameReview "   "
          (clock Scenario.start)) = AppendOk
  /\ exists resp st' data,
      Either.apiSubmitReview Either.First "Reviews" Scenario.stamp Scenario.reviewSheet
        Cases.blankNameReview Scenario.start = (Returned resp, st')
      /\ status resp = 200%nat
      /\ member "data" (body resp) = Some data
      /\ member "faculty" data = Some (JString EmptyString).
Proof.
  split; [vm_compute; reflexivity|]. split; [reflexivity|].
  split; [reflexivity|]. split; [reflexivity|].
  destruct (WriteRouteFacts.submit_blank_name_is_stored Either.First "Reviews"
              Scenario.stamp Scenario.reviewSheet Cases.blankNameReview "   "
              Scenario.start ltac:(vm_compute; reflexivity) eq_refl eq_refl eq_refl)
    as [_ [resp [st' [rest [data [R [S [_ [D F]]]]]]]]].
  exists resp, st', data. repeat split; assumption.
Defined.

(** Dr. Rao's averages name the review of 10:00, the first in the sheet. *)
Lemma latest_review_is_first_match_witness :
  fst (Either.getFacultyAverages Either.Later "Reviews" Scenario.reviewSheet
         "Dr. Rao" Scenario.start) = Returned (Some Scenario.raoAverages)
  /\ exists pre post,
      Scenario.reviews = (pre ++ latestReview Scenario.raoAverages :: post)%list
      /\ filter (Either.selects Either.Later "Dr. Rao") pre = []
      /\ count Scenario.raoAverages
         = S (List.length (filter (Either.selects Either.Later "Dr. Rao") post)).
Proof.
  assert (H : fst (Either.getFacultyAverages Either.Later "Reviews" Scenario.reviewSheet
                     "Dr. Rao" Scenario.start) = Returned (Some Scenario.raoAverages))
    by (vm_compute; reflexivity).
  split; [exact H|].
  destruct (AggregationFacts.latest_review_is_first_match Either.Later "Reviews"
              Scenario.reviewSheet "Dr. Rao" Scenario.start Scenario.raoAverages H)
    as [v [pre [post [G [E [F [_ C]]]]]]].
  injection G as <-.
  exists pre, post. split; [exact E|]. split; [exact F | exact C].
Defined.

(** The second review of Dr. Rao has no evaluation mark. *)
Lemma invalid_cell_leaves_average_witness :
  let first := ["Dr. Rao"; "5"; "3"; "4"; "4"; "72.5"; "4"] in
  let second := ["Dr. Rao"; "4"; ""; ""; "5"; "68"; "5"] in
  validEntry 2 second = false
  /\ calculateAverage ([first] ++ second :: []) 2 = calculateAverage ([first] ++ []) 2.
Proof.
  cbv zeta. split; [reflexivity|].
  exact (AggregationFacts.invalid_cell_leaves_average
           [["Dr. Rao"; "5"; "3"; "4"; "4"; "72.5"; "4"]] []
           ["Dr. Rao"; "4"; ""; ""; "5"; "68"; "5"] 2 eq_refl).
Defined.

End MoreWitnesses.
